(** * The API client and the view components of the longevity
      clinical-intervention front end

    A shallow embedding of the TypeScript sources

    - [types/index.ts] and [types/user.ts]: the domain types,
    - [services/api.ts] and [services/auth.ts]: the axios client and the
      resource access modules,
    - [components/InterventionList.tsx], [InterventionDetail.tsx],
      [LoginPage.tsx], [RegisterPage.tsx]: the handlers and the parts of the
      render functions that the properties below talk about,

    followed by the properties themselves.

    Conventions of the embedding.

    - A JavaScript [number] is modelled by an integer ([Z]): identifiers,
      page sizes, sample sizes and scores are integer valued here; [NaN],
      the infinities and fractional values are outside the model.
    - A JavaScript string is a [string], one [ascii] per code unit.  The
      Chinese user-interface literals are kept as their UTF-8 bytes; they are
      only stored and compared, never measured.
    - An optional property [x?: T] is a field of type [option T], [None]
      standing for [undefined].
    - Effects (the requests handed to axios, [localStorage], the console,
      the router history, React state) are threaded through a state and
      exception monad [M]. *)

From Stdlib Require Import ZArith String Ascii List DecimalString DecimalZ
  DecimalPos Lia.
From stdpp Require Import base strings gmap list.

Open Scope Z_scope.

(** ** JavaScript values *)

Definition number : Type := Z.

(** The integers that a JavaScript number represents exactly. *)
Definition safe_integer (n : number) : Prop :=
  - (2 ^ 53 - 1) <= n <= 2 ^ 53 - 1.

(** [String(n)], as used by a template literal [`${n}`]: for an integer it
    is the decimal numeral, with a leading minus sign when negative.  This
    is what JavaScript prints for the integers below 10^21 in absolute
    value, so in particular for every [safe_integer]; from 10^21 on
    JavaScript switches to exponent notation, which the definition does not
    follow.  The properties that depend on the numeral assume
    [safe_integer]. *)
Definition number_to_string (n : number) : string :=
  NilZero.string_of_int (Z.to_int n).

(** Values of TypeScript type [any]. *)
#[local] Unset Elimination Schemes.
Inductive Json : Type :=
| JNull
| JBool (b : bool)
| JNum (n : number)
| JStr (s : string)
| JArr (items : list Json)
| JObj (props : list (string * Json)).
#[local] Set Elimination Schemes.

(** ** Domain types: [types/index.ts], [types/user.ts]

    Every interface is a record in a module of its own, so that the
    properties keep their names.  The records are indexed by the wrapper [F]
    put around the required properties: [Required] gives the interface
    itself, [option] gives TypeScript's [Partial<_>] of it. *)

Definition Required (T : Type) : Type := T.

Inductive Category : Set :=
| nutrition | exercise | sleep | supplement | medical.

Module Intervention.
Record t (F : Type -> Type) : Type := mk {
  id : F number;
  name : F string;
  name_en : option string;
  description : option string;
  category : F Category;
  mechanism : option string;
  evidence_level : F number;
  created_at : F string;
  updated_at : F string
}.
Arguments mk {F}.
Arguments id {F}.
Arguments name {F}.
Arguments name_en {F}.
Arguments description {F}.
Arguments category {F}.
Arguments mechanism {F}.
Arguments evidence_level {F}.
Arguments created_at {F}.
Arguments updated_at {F}.
End Intervention.

Definition Intervention : Type := Intervention.t Required.

Module EffectSize.
Record t : Type := mk {
  metric : string;
  value : number;
  ci_95 : number * number
}.
End EffectSize.

Module Evidence.
Record t (F : Type -> Type) : Type := mk {
  id : F number;
  intervention_id : F number;
  source_type : option string;
  pubmed_id : option string;
  citation : option string;
  sample_size : option number;
  duration_days : option number;
  effect_size : option EffectSize.t;
  outcomes : option (list string);
  quality_score : option number;
  created_at : F string
}.
Arguments mk {F}.
Arguments id {F}.
Arguments intervention_id {F}.
Arguments source_type {F}.
Arguments pubmed_id {F}.
Arguments citation {F}.
Arguments sample_size {F}.
Arguments duration_days {F}.
Arguments effect_size {F}.
Arguments outcomes {F}.
Arguments quality_score {F}.
Arguments created_at {F}.
End Evidence.

Definition Evidence : Type := Evidence.t Required.

Module Recommendation.
Record t (F : Type -> Type) : Type := mk {
  id : F number;
  user_id : F string;
  intervention_id : F number;
  priority : F number;
  reasoning : option string;
  risk_score : option number;
  benefit_score : option number;
  net_benefit : option number;
  created_at : F string
}.
Arguments mk {F}.
End Recommendation.

Definition Recommendation : Type := Recommendation.t Required.

Module InterventionWithScores.
Record t : Type := mk {
  id : number;
  name : string;
  category : string;
  evidence_level : number;
  risk_score : number;
  benefit_score : number;
  net_benefit : number
}.
End InterventionWithScores.

Module User.
Record t (F : Type -> Type) : Type := mk {
  id : F number;
  username : F string;
  email : F string;
  full_name : option string;
  is_active : F bool;
  is_admin : F bool;
  created_at : F string;
  updated_at : F string
}.
Arguments mk {F}.
End User.

Definition User : Type := User.t Required.

Module LoginRequest.
Record t : Type := mk {
  username : string;
  password : string
}.
End LoginRequest.

Module RegisterRequest.
Record t : Type := mk {
  username : string;
  email : string;
  password : string;
  full_name : option string
}.
End RegisterRequest.

Module Token.
Record t : Type := mk {
  access_token : string;
  refresh_token : string;
  token_type : string
}.
End Token.

Inductive Gender : Set := male | female | other.

Module HealthProfile.
Record t : Type := mk {
  id : option number;
  user_id : option number;
  age : option number;
  gender : option Gender;
  weight : option number;
  height : option number;
  blood_pressure_systolic : option number;
  blood_pressure_diastolic : option number;
  heart_rate : option number;
  medical_conditions : option (list string);
  allergies : option (list string);
  current_medications : option (list string);
  family_history : option (list (string * Json));
  created_at : option string;
  updated_at : option string
}.
End HealthProfile.

(** ** Errors, promises and the effect monad *)

(** The body FastAPI sends with an error status: [{ detail: ... }]. *)
Record ErrorBody : Type := { detail : option string }.

(** [err.response] of an axios error: the status and the body, when there
    is one. *)
Record ErrorResponse : Type := {
  err_status : Z;
  err_data : option ErrorBody
}.

(** What a [catch] clause can receive.  An axios error carries the response
    when the server answered with a status outside 2xx, and none on a
    transport failure or a timeout.  A [ReferenceError] is what evaluating
    an identifier without a binding throws. *)
Inductive JsError : Type :=
| AxiosError (response : option ErrorResponse)
| ReferenceError (ident : string).

Inductive Settlement (T : Type) : Type :=
| Fulfilled (v : T)
| Rejected (reason : JsError).
Arguments Fulfilled {T}.
Arguments Rejected {T}.

(** A promise is modelled by its settlement and the time at which it
    settles.  The time only matters to [Promise.all], which rejects with the
    rejection that comes first. *)
Record Promise (T : Type) : Type := {
  settled_at : nat;
  outcome : Settlement T
}.
Arguments settled_at {T}.
Arguments outcome {T}.

Inductive Result (A : Type) : Type :=
| Returned (a : A)
| Threw (e : JsError).
Arguments Returned {A}.
Arguments Threw {A}.

(** Computations over a state [St] that return or throw. *)
Definition M (St A : Type) : Type := St -> Result A * St.

Definition ret {St A} (a : A) : M St A := fun s => (Returned a, s).

Definition throw {St A} (e : JsError) : M St A := fun s => (Threw e, s).

Definition bind {St A B} (m : M St A) (k : A -> M St B) : M St B :=
  fun s =>
    match m s with
    | (Returned a, s') => k a s'
    | (Threw e, s') => (Threw e, s')
    end.

Declare Scope js_scope.
Delimit Scope js_scope with js.
Notation "x <- m ;; k" := (bind m (fun x => k))
  (at level 100, m at next level, right associativity) : js_scope.
Notation "m ;; k" := (bind m (fun _ => k))
  (at level 100, right associativity) : js_scope.
Open Scope js_scope.

(** [try { body } catch (err) { handler err }] *)
Definition try_catch {St A} (body : M St A) (handler : JsError -> M St A)
  : M St A :=
  fun s =>
    match body s with
    | (Returned a, s') => (Returned a, s')
    | (Threw e, s') => handler e s'
    end.

(** [try { body } finally { cleanup }]: the cleanup runs either way, and the
    completion of the body is kept unless the cleanup itself throws. *)
Definition try_finally {St A} (body : M St A) (cleanup : M St unit)
  : M St A :=
  fun s =>
    let '(r, s') := body s in
    match cleanup s' with
    | (Returned _, s'') => (r, s'')
    | (Threw e, s'') => (Threw e, s'')
    end.

Definition modify {St} (f : St -> St) : M St unit :=
  fun s => (Returned tt, f s).

Definition gets {St A} (f : St -> A) : M St A :=
  fun s => (Returned (f s), s).

(** [await p] *)
Definition await {St T} (p : Promise T) : M St T :=
  match outcome p with
  | Fulfilled v => ret v
  | Rejected e => throw e
  end.

(** [Promise.all([p, q])]: fulfilled with both values once both promises
    are; rejected with the reason of the first promise to reject. *)
Definition Promise_all {A B} (p : Promise A) (q : Promise B)
  : Promise (A * B) :=
  match outcome p, outcome q with
  | Fulfilled a, Fulfilled b =>
      {| settled_at := Nat.max (settled_at p) (settled_at q);
         outcome := Fulfilled (a, b) |}
  | Rejected e, Fulfilled _ =>
      {| settled_at := settled_at p; outcome := Rejected e |}
  | Fulfilled _, Rejected e =>
      {| settled_at := settled_at q; outcome := Rejected e |}
  | Rejected e1, Rejected e2 =>
      if (settled_at p <=? settled_at q)%nat
      then {| settled_at := settled_at p; outcome := Rejected e1 |}
      else {| settled_at := settled_at q; outcome := Rejected e2 |}
  end.

(** [a || b] on an optional string: [undefined] and the empty string are
    falsy. *)
Definition or_else (a : option string) (b : string) : string :=
  match a with
  | Some s => if decide (s = "") then b else s
  | None => b
  end.

(** [err.response?.data?.detail] *)
Definition response_detail (err : JsError) : option string :=
  match err with
  | AxiosError (Some r) =>
      match err_data r with
      | Some body => detail body
      | None => None
      end
  | AxiosError None => None
  | ReferenceError _ => None
  end.

(** ** The HTTP client: axios *)

Inductive Method : Set := GET | POST | PUT | DELETE.

(** The query objects the access modules accept: [{ skip?, limit?,
    category? }] for the intervention list, [{ skip?, limit? }] for the
    paginated evidence and recommendation lists. *)
Module ListParams.
Record t : Type := mk {
  skip : option number;
  limit : option number;
  category : option string
}.
End ListParams.

Module PageParams.
Record t : Type := mk {
  skip : option number;
  limit : option number
}.
End PageParams.

Inductive Params : Type :=
| OfList (p : ListParams.t)
| OfPage (p : PageParams.t).

(** The request bodies the access modules send. *)
Inductive Body : Type :=
| RegisterBody (d : RegisterRequest.t)
| LoginBody (d : LoginRequest.t)
| RefreshTokenBody (refresh_token : string)
| UserBody (d : User.t option)
| HealthProfileBody (d : HealthProfile.t)
| InterventionBody (d : Intervention.t option)
| EvidenceBody (d : Evidence.t option)
| RecommendationBody (d : Recommendation.t option).

(** The second (for [get] and [delete]) or third argument of a verb method:
    [{ params }], [{ headers }] or nothing. *)
Record AxiosRequestConfig : Type := {
  cfg_params : option Params;
  cfg_headers : gmap string string
}.

Definition no_config : AxiosRequestConfig :=
  {| cfg_params := None; cfg_headers := ∅ |}.

(** A request as axios hands it to the transport: the settings of the
    instance, the arguments of the verb method and nothing else. *)
Record Request : Type := {
  method : Method;
  baseURL : string;
  timeout : Z;
  url : string;
  params : option Params;
  data : option Body;
  headers : gmap string string
}.

(** The type arguments the code instantiates [api.get<T>] with. *)
Inductive ty : Set :=
| TAny
| TUser
| TToken
| THealthProfile
| TIntervention
| TEvidence
| TRecommendation
| TInterventionWithScores
| TArray (elt : ty).

Fixpoint interp (t : ty) : Type :=
  match t with
  | TAny => Json
  | TUser => User
  | TToken => Token.t
  | THealthProfile => HealthProfile.t
  | TIntervention => Intervention
  | TEvidence => Evidence
  | TRecommendation => Recommendation
  | TInterventionWithScores => InterventionWithScores.t
  | TArray elt => list (interp elt)
  end.

Module AxiosResponse.
Record t (T : Type) : Type := mk {
  data : T;
  status : Z
}.
Arguments mk {T}.
Arguments data {T}.
Arguments status {T}.
End AxiosResponse.

(** Transport and server together: given the requests made so far and a new
    request, the promise axios returns for it.  It is fulfilled with the
    response on a 2xx status and rejected with an [AxiosError] otherwise.
    The payload has the type the caller asked for: the model takes the
    server to be well typed. *)
Definition Server : Type :=
  forall t : ty, list Request -> Request ->
                 Promise (AxiosResponse.t (interp t)).

(** A [navigate(to, { state: { message } })] call of the router. *)
Record Navigation : Type := {
  nav_to : string;
  nav_message : option string
}.

(** What the code can observe and change outside React state. *)
Record World : Type := {
  server : Server;
  netlog : list Request;
  localStorage : gmap string string;
  console : list (string * JsError);
  history : list Navigation
}.

Definition log_request (r : Request) (w : World) : World :=
  {| server := server w;
     netlog := netlog w ++ [r];
     localStorage := localStorage w;
     console := console w;
     history := history w |}.

(** [localStorage.setItem(key, value)] *)
Definition localStorage_setItem (key value : string) : M World unit :=
  modify (fun w =>
    {| server := server w;
       netlog := netlog w;
       localStorage := <[key := value]> (localStorage w);
       console := console w;
       history := history w |}).

(** [console.error(message, error)] *)
Definition console_error (message : string) (err : JsError) : M World unit :=
  modify (fun w =>
    {| server := server w;
       netlog := netlog w;
       localStorage := localStorage w;
       console := console w ++ [(message, err)];
       history := history w |}).

(** [navigate(to)] and [navigate(to, { state: { message } })] *)
Definition navigate (to : string) (message : option string) : M World unit :=
  modify (fun w =>
    {| server := server w;
       netlog := netlog w;
       localStorage := localStorage w;
       console := console w;
       history := history w ++ [{| nav_to := to; nav_message := message |}] |}).

Module Axios.

(** An instance made by [axios.create({ baseURL, timeout })]. *)
Record Instance : Type := create {
  defaults_baseURL : string;
  defaults_timeout : Z
}.

(** Issuing a request: it is recorded, and the promise is the transport's. *)
Definition request (t : ty) (r : Request)
  : M World (Promise (AxiosResponse.t (interp t))) :=
  fun w => (Returned (server w t (netlog w) r), log_request r w).

Definition get (t : ty) (inst : Instance) (path : string)
  (cfg : AxiosRequestConfig) :=
  request t {| method := GET;
               baseURL := defaults_baseURL inst;
               timeout := defaults_timeout inst;
               url := path;
               params := cfg_params cfg;
               data := None;
               headers := cfg_headers cfg |}.

Definition delete (t : ty) (inst : Instance) (path : string)
  (cfg : AxiosRequestConfig) :=
  request t {| method := DELETE;
               baseURL := defaults_baseURL inst;
               timeout := defaults_timeout inst;
               url := path;
               params := cfg_params cfg;
               data := None;
               headers := cfg_headers cfg |}.

Definition post (t : ty) (inst : Instance) (path : string) (body : Body)
  (cfg : AxiosRequestConfig) :=
  request t {| method := POST;
               baseURL := defaults_baseURL inst;
               timeout := defaults_timeout inst;
               url := path;
               params := cfg_params cfg;
               data := Some body;
               headers := cfg_headers cfg |}.

Definition put (t : ty) (inst : Instance) (path : string) (body : Body)
  (cfg : AxiosRequestConfig) :=
  request t {| method := PUT;
               baseURL := defaults_baseURL inst;
               timeout := defaults_timeout inst;
               url := path;
               params := cfg_params cfg;
               data := Some body;
               headers := cfg_headers cfg |}.

End Axios.

(** *** What axios and the server make of a request *)

Inductive QueryValue : Type :=
| QNum (n : number)
| QStr (s : string).

Definition query_entry {A} (key : string) (inj : A -> QueryValue)
  (v : option A) : list (string * QueryValue) :=
  match v with
  | Some a => [(key, inj a)]
  | None => []
  end.

(** axios serialises the [params] object property by property and leaves
    out the properties that are [undefined]. *)
Definition serialize_params (p : option Params)
  : list (string * QueryValue) :=
  match p with
  | None => []
  | Some (OfList q) =>
      query_entry "skip" QNum (ListParams.skip q)
      ++ query_entry "limit" QNum (ListParams.limit q)
      ++ query_entry "category" QStr (ListParams.category q)
  | Some (OfPage q) =>
      query_entry "skip" QNum (PageParams.skip q)
      ++ query_entry "limit" QNum (PageParams.limit q)
  end.

(** When the code writes the query into the path itself, as in
    [`/x?limit=${limit}`], axios sends the string as it is and the server
    takes it apart: the fragment after [#] is never sent, the path ends at
    the first [?], the query is split at every [&], each piece at its
    first [=], and names and values are form-decoded ([+] is a space,
    [%XY] the byte with that hexadecimal code). *)
Fixpoint cut_at (c : ascii) (s : string) : string * option string :=
  match s with
  | EmptyString => (EmptyString, None)
  | String x rest =>
      if Ascii.eqb x c then (EmptyString, Some rest)
      else let '(before, after) := cut_at c rest in (String x before, after)
  end.

Fixpoint split_on (c : ascii) (s : string) : list string :=
  match s with
  | EmptyString => [EmptyString]
  | String x rest =>
      if Ascii.eqb x c then EmptyString :: split_on c rest
      else match split_on c rest with
           | piece :: pieces => String x piece :: pieces
           | [] => [String x EmptyString]
           end
  end.

Definition hex_value (c : ascii) : option N :=
  let n := N_of_ascii c in
  if ((48 <=? n) && (n <=? 57))%N then Some (n - 48)%N
  else if ((65 <=? n) && (n <=? 70))%N then Some (n - 55)%N
  else if ((97 <=? n) && (n <=? 102))%N then Some (n - 87)%N
  else None.

Fixpoint form_decode (s : string) : string :=
  match s with
  | EmptyString => EmptyString
  | String c rest =>
      if Ascii.eqb c "+" then String " " (form_decode rest)
      else if Ascii.eqb c "%" then
        match rest with
        | String h (String l rest') =>
            match hex_value h, hex_value l with
            | Some a, Some b =>
                String (ascii_of_N (16 * a + b)) (form_decode rest')
            | _, _ => String c (form_decode rest)
            end
        | _ => String c (form_decode rest)
        end
      else String c (form_decode rest)
  end.

Definition parse_pair (piece : string) : string * string :=
  let '(name, value) := cut_at "=" piece in
  (form_decode name, form_decode (default EmptyString value)).

Definition parse_query (q : string) : list (string * string) :=
  map parse_pair (filter (fun piece => piece ≠ EmptyString) (split_on "&" q)).

(** The path and the query parameters the server sees in a URL string.
    The definitions stand for the URL parser on the strings on which it
    changes nothing before the path and the query are cut: they do not
    remove dot segments ([.] and [..]) from the path, nor strip or encode
    characters.  The properties about arbitrary strings restrict them
    accordingly. *)
Definition url_path (u : string) : string :=
  fst (cut_at "?" (fst (cut_at "#" u))).

Definition url_query (u : string) : list (string * string) :=
  match snd (cut_at "?" (fst (cut_at "#" u))) with
  | Some q => parse_query q
  | None => []
  end.

(** ** Module scopes

    [services/api.ts] and [services/auth.ts] are two modules.  An identifier
    used in a function of a module is looked up, when the function runs, in
    the top-level bindings of that module: its imports and its [const]
    declarations.  Using an identifier that has no binding there throws a
    [ReferenceError]. *)

Inductive Binding : Type :=
| AxiosLibrary
| StringConst (s : string)
| ClientInstance (inst : Axios.Instance).

Definition Scope : Type := list (string * Binding).

Fixpoint resolve (scope : Scope) (ident : string) : option Binding :=
  match scope with
  | [] => None
  | (x, b) :: rest => if decide (x = ident) then Some b else resolve rest ident
  end.

(** Evaluating [api.verb(...)] where [api] has the binding [b]. *)
Definition call_api {A} (b : option Binding) (k : Axios.Instance -> M World A)
  : M World A :=
  match b with
  | Some (ClientInstance inst) => k inst
  | _ => throw (ReferenceError "api")
  end.

(** ** [services/api.ts] *)

Definition API_BASE : string := "/api/v1".

Definition api : Axios.Instance :=
  Axios.create API_BASE 10000.

(** The top-level bindings of [services/api.ts]: [import axios],
    [const API_BASE], [export const api]. *)
Definition api_ts_scope : Scope :=
  [("axios", AxiosLibrary);
   ("API_BASE", StringConst API_BASE);
   ("api", ClientInstance api)].

Module interventionsApi.

Definition get (id : number) :=
  call_api (resolve api_ts_scope "api") (fun api =>
    Axios.get TIntervention api ("/interventions/" +:+ number_to_string id)
      no_config).

Definition create (d : Intervention.t option) :=
  call_api (resolve api_ts_scope "api") (fun api =>
    Axios.post TIntervention api "/interventions" (InterventionBody d)
      no_config).

Definition update (id : number) (d : Intervention.t option) :=
  call_api (resolve api_ts_scope "api") (fun api =>
    Axios.put TIntervention api ("/interventions/" +:+ number_to_string id)
      (InterventionBody d) no_config).

Definition delete (id : number) :=
  call_api (resolve api_ts_scope "api") (fun api =>
    Axios.delete TAny api ("/interventions/" +:+ number_to_string id)
      no_config).

Definition search (query : string) :=
  call_api (resolve api_ts_scope "api") (fun api =>
    Axios.get (TArray TIntervention) api
      ("/interventions/search/by-name?query=" +:+ query) no_config).

Definition getByEvidenceLevel (level : number) :=
  call_api (resolve api_ts_scope "api") (fun api =>
    Axios.get (TArray TIntervention) api
      ("/interventions/by-evidence-level/" +:+ number_to_string level)
      no_config).

Definition list (params : option ListParams.t) :=
  call_api (resolve api_ts_scope "api") (fun api =>
    Axios.get (TArray TIntervention) api "/interventions"
      {| cfg_params := OfList <$> params; cfg_headers := ∅ |}).

End interventionsApi.

Module evidenceApi.

Definition get (id : number) :=
  call_api (resolve api_ts_scope "api") (fun api =>
    Axios.get TEvidence api ("/evidence/" +:+ number_to_string id) no_config).

Definition create (d : Evidence.t option) :=
  call_api (resolve api_ts_scope "api") (fun api =>
    Axios.post TEvidence api "/evidence" (EvidenceBody d) no_config).

Definition getByQuality (minQuality : number) :=
  call_api (resolve api_ts_scope "api") (fun api =>
    Axios.get (TArray TEvidence) api
      ("/evidence/by-quality?min_quality=" +:+ number_to_string minQuality)
      no_config).

Definition getMetaAnalyses :=
  call_api (resolve api_ts_scope "api") (fun api =>
    Axios.get (TArray TEvidence) api "/evidence/meta-analyses" no_config).

Definition getRandomizedTrials :=
  call_api (resolve api_ts_scope "api") (fun api =>
    Axios.get (TArray TEvidence) api "/evidence/randomized-trials" no_config).

Definition list (interventionId : number) (params : option PageParams.t) :=
  call_api (resolve api_ts_scope "api") (fun api =>
    Axios.get (TArray TEvidence) api
      ("/evidence/intervention/" +:+ number_to_string interventionId)
      {| cfg_params := OfPage <$> params; cfg_headers := ∅ |}).

End evidenceApi.

Module recommendationsApi.

Definition create (d : Recommendation.t option) :=
  call_api (resolve api_ts_scope "api") (fun api =>
    Axios.post TRecommendation api "/recommendations" (RecommendationBody d)
      no_config).

Definition getUser (userId : string) (params : option PageParams.t) :=
  call_api (resolve api_ts_scope "api") (fun api =>
    Axios.get (TArray TRecommendation) api
      ("/recommendations/user/" +:+ userId)
      {| cfg_params := OfPage <$> params; cfg_headers := ∅ |}).

Definition get (id : number) :=
  call_api (resolve api_ts_scope "api") (fun api =>
    Axios.get TRecommendation api
      ("/recommendations/" +:+ number_to_string id) no_config).

(** [(limit = 10) => ...]: the default is taken when the argument is
    missing or [undefined]. *)
Definition getTopInterventions (limit : option number) :=
  let limit := default 10 limit in
  call_api (resolve api_ts_scope "api") (fun api =>
    Axios.get (TArray TInterventionWithScores) api
      ("/recommendations/top-interventions?limit=" +:+ number_to_string limit)
      no_config).

End recommendationsApi.

(** ** [services/auth.ts] *)

(** The shape of the exported object [authApi]. *)
Module AuthApi.
Record t : Type := mk {
  register : RegisterRequest.t -> M World (Promise (AxiosResponse.t User));
  login : LoginRequest.t -> M World (Promise (AxiosResponse.t Token.t));
  logout : string -> M World (Promise (AxiosResponse.t Json));
  refreshToken : string -> M World (Promise (AxiosResponse.t Token.t));
  getCurrentUser : string -> M World (Promise (AxiosResponse.t User));
  updateCurrentUser :
    string -> User.t option -> M World (Promise (AxiosResponse.t User));
  createHealthProfile :
    string -> HealthProfile.t ->
    M World (Promise (AxiosResponse.t HealthProfile.t));
  updateHealthProfile :
    string -> HealthProfile.t ->
    M World (Promise (AxiosResponse.t HealthProfile.t));
  getHealthProfile :
    string -> M World (Promise (AxiosResponse.t HealthProfile.t))
}.
End AuthApi.

(** [{ headers: { Authorization: `Bearer ${token}` } }] *)
Definition bearer (token : string) : AxiosRequestConfig :=
  {| cfg_params := None;
     cfg_headers := {[ "Authorization" := "Bearer " +:+ token ]} |}.

(** The functions of [authApi] as they are written, for whatever the
    identifier [api] evaluates to when they run. *)
Definition authApi_with (api_binding : option Binding) : AuthApi.t :=
  {| AuthApi.register := fun d =>
       call_api api_binding (fun api =>
         Axios.post TUser api "/auth/register" (RegisterBody d) no_config);
     AuthApi.login := fun d =>
       call_api api_binding (fun api =>
         Axios.post TToken api "/auth/login" (LoginBody d) no_config);
     AuthApi.logout := fun refreshToken =>
       call_api api_binding (fun api =>
         Axios.post TAny api "/auth/logout" (RefreshTokenBody refreshToken)
           no_config);
     AuthApi.refreshToken := fun refreshToken =>
       call_api api_binding (fun api =>
         Axios.post TToken api "/auth/refresh" (RefreshTokenBody refreshToken)
           no_config);
     AuthApi.getCurrentUser := fun token =>
       call_api api_binding (fun api =>
         Axios.get TUser api "/auth/me" (bearer token));
     AuthApi.updateCurrentUser := fun token d =>
       call_api api_binding (fun api =>
         Axios.put TUser api "/auth/me" (UserBody d) (bearer token));
     AuthApi.createHealthProfile := fun token d =>
       call_api api_binding (fun api =>
         Axios.post THealthProfile api "/auth/health-profile"
           (HealthProfileBody d) (bearer token));
     AuthApi.updateHealthProfile := fun token d =>
       call_api api_binding (fun api =>
         Axios.put THealthProfile api "/auth/health-profile"
           (HealthProfileBody d) (bearer token));
     AuthApi.getHealthProfile := fun token =>
       call_api api_binding (fun api =>
         Axios.get THealthProfile api "/auth/health-profile" (bearer token)) |}.

(** The top-level bindings of [services/auth.ts]: [import axios] and
    [const API_BASE = '/api/v1'].  The type import is erased.  The module
    neither imports nor declares [api]. *)
Definition auth_ts_scope : Scope :=
  [("axios", AxiosLibrary);
   ("API_BASE", StringConst "/api/v1")].

Definition authApi : AuthApi.t :=
  authApi_with (resolve auth_ts_scope "api").

(** ** React: state, JSX values and what gets displayed *)

(** A handler of a component with state [S] runs over the state and the
    world. *)
Definition io {S A} (m : M World A) : M (S * World) A :=
  fun '(s, w) => let '(r, w') := m w in (r, (s, w')).

Definition set_state {S} (f : S -> S) : M (S * World) unit :=
  modify (fun '(s, w) => (f s, w)).

(** The values a JSX child expression evaluates to in these components.
    Of an element the model keeps the tag, the [className] and the
    children; keys, event handlers and form attributes are left out. *)
#[local] Unset Elimination Schemes.
Inductive JSX : Type :=
| Element (tag className : string) (children : list JSX)
| JsxString (s : string)
| JsxNumber (n : number)
| JsxUndefined
| JsxArray (items : list JSX).
#[local] Set Elimination Schemes.

(** What reaches the page. *)
#[local] Unset Elimination Schemes.
Inductive DOM : Type :=
| Node (tag className : string) (children : list DOM)
| Text (s : string).
#[local] Set Elimination Schemes.

Definition truthy (v : JSX) : bool :=
  match v with
  | Element _ _ _ => true
  | JsxString s => bool_decide (s ≠ "")
  | JsxNumber n => bool_decide (n ≠ 0)
  | JsxUndefined => false
  | JsxArray _ => true
  end.

(** [a && b] evaluates to [a] when [a] is falsy and to [b] otherwise. *)
Definition js_and (a b : JSX) : JSX :=
  if truthy a then b else a.

Definition opt_string (o : option string) : JSX :=
  match o with Some s => JsxString s | None => JsxUndefined end.

Definition opt_number (o : option number) : JSX :=
  match o with Some n => JsxNumber n | None => JsxUndefined end.

(** React's treatment of children: an element becomes a node, a non-empty
    string and every number (zero included) become text, [undefined] and
    the empty string produce nothing, an array is flattened. *)
Fixpoint react_render (v : JSX) : list DOM :=
  match v with
  | Element tag cls children => [Node tag cls (flat_map react_render children)]
  | JsxString s => if decide (s = "") then [] else [Text s]
  | JsxNumber n => [Text (number_to_string n)]
  | JsxUndefined => []
  | JsxArray items => flat_map react_render items
  end.

Definition category_string (c : Category) : string :=
  match c with
  | nutrition => "nutrition"
  | exercise => "exercise"
  | sleep => "sleep"
  | supplement => "supplement"
  | medical => "medical"
  end.

(** ** [components/InterventionList.tsx] *)

Module InterventionList.

Record State : Type := {
  interventions : list Intervention;
  loading : bool;
  filter : string
}.

Definition initial : State :=
  {| interventions := []; loading := false; filter := "all" |}.

Definition setInterventions (v : list Intervention) : M (State * World) unit :=
  set_state (fun s =>
    {| interventions := v; loading := loading s; filter := filter s |}).

Definition setLoading (v : bool) : M (State * World) unit :=
  set_state (fun s =>
    {| interventions := interventions s; loading := v; filter := filter s |}).

Definition setFilter (v : string) : M (State * World) unit :=
  set_state (fun s =>
    {| interventions := interventions s; loading := loading s; filter := v |}).

Definition loadInterventions : M (State * World) unit :=
  filter <- gets (fun sw => filter (fst sw));;
  setLoading true;;
  try_finally
    (try_catch
       (let params :=
          if decide (filter ≠ "all")
          then Some (ListParams.mk None None (Some filter))
          else None in
        p <- io (interventionsApi.list params);;
        response <- await p;;
        setInterventions (AxiosResponse.data response))
       (fun error => io (console_error "Failed to load interventions:" error)))
    (setLoading false).

(** The object literal [colors] of [evidenceLevelColor]. *)
Definition colors : gmap Z string :=
  {[ 1 := "bg-green-100 text-green-800";
     2 := "bg-blue-100 text-blue-800";
     3 := "bg-yellow-100 text-yellow-800";
     4 := "bg-gray-100 text-gray-800" ]}.

(** [colors[level] || colors[4]]: a property lookup gives [undefined] for a
    key the object does not have. *)
Definition evidenceLevelColor (level : number) : option string :=
  match colors !! level with
  | Some c => if decide (c = "") then colors !! 4 else Some c
  | None => colors !! 4
  end.

End InterventionList.

(** ** [components/InterventionDetail.tsx] *)

Module InterventionDetail.

Record State : Type := {
  intervention : option Intervention;
  evidence : list Evidence;
  loading : bool
}.

Definition initial : State :=
  {| intervention := None; evidence := []; loading := true |}.

Definition setIntervention (v : option Intervention)
  : M (State * World) unit :=
  set_state (fun s =>
    {| intervention := v; evidence := evidence s; loading := loading s |}).

Definition setEvidence (v : list Evidence) : M (State * World) unit :=
  set_state (fun s =>
    {| intervention := intervention s; evidence := v; loading := loading s |}).

Definition setLoading (v : bool) : M (State * World) unit :=
  set_state (fun s =>
    {| intervention := intervention s; evidence := evidence s; loading := v |}).

(** Both calls of the array literal are made, in order, before
    [Promise.all] is awaited. *)
Definition loadData (interventionId : number) : M (State * World) unit :=
  setLoading true;;
  try_finally
    (try_catch
       (p1 <- io (interventionsApi.get interventionId);;
        p2 <- io (evidenceApi.list interventionId None);;
        res <- await (Promise_all p1 p2);;
        setIntervention (Some (AxiosResponse.data (fst res)));;
        setEvidence (AxiosResponse.data (snd res)))
       (fun error => io (console_error "Failed to load intervention:" error)))
    (setLoading false).

(** One entry of [evidence.map(...)]. *)
Definition evidence_item (e : Evidence) : JSX :=
  Element "div" "border-l-4 border-blue-500 pl-4"
    [ js_and (opt_string (Evidence.source_type e))
        (Element "p" "text-sm font-medium text-blue-600"
           [opt_string (Evidence.source_type e)]);
      js_and (opt_string (Evidence.citation e))
        (Element "p" "text-gray-700" [opt_string (Evidence.citation e)]);
      Element "div" "flex gap-4 text-sm text-gray-500 mt-2"
        [ js_and (opt_number (Evidence.sample_size e))
            (Element "span" ""
               [JsxString "样本: "; opt_number (Evidence.sample_size e)]);
          js_and (opt_number (Evidence.duration_days e))
            (Element "span" ""
               [JsxString "时长: "; opt_number (Evidence.duration_days e);
                JsxString "天"]);
          js_and (opt_number (Evidence.quality_score e))
            (Element "span" ""
               [JsxString "质量分数: ";
                opt_number (Evidence.quality_score e)]) ] ].

(** The card with the name, the category, the level, the description and
    the mechanism. *)
Definition intervention_section (i : Intervention) : JSX :=
  Element "div" "bg-white rounded-lg shadow-lg p-6 mb-6"
    [ Element "h1" "text-3xl font-bold mb-4"
        [JsxString (Intervention.name i)];
      Element "div" "grid md:grid-cols-2 gap-4 mb-6"
        [ Element "div" ""
            [ Element "p" "text-sm text-gray-500" [JsxString "分类"];
              Element "p" "font-medium"
                [JsxString (category_string (Intervention.category i))] ];
          Element "div" ""
            [ Element "p" "text-sm text-gray-500" [JsxString "证据等级"];
              Element "p" "font-medium"
                [JsxString "Level ";
                 JsxNumber (Intervention.evidence_level i)] ] ];
      js_and (opt_string (Intervention.description i))
        (Element "div" "mb-4"
           [ Element "h3" "font-semibold mb-2" [JsxString "描述"];
             Element "p" "text-gray-700"
               [opt_string (Intervention.description i)] ]);
      js_and (opt_string (Intervention.mechanism i))
        (Element "div" "mb-4"
           [ Element "h3" "font-semibold mb-2" [JsxString "作用机制"];
             Element "p" "text-gray-700"
               [opt_string (Intervention.mechanism i)] ]) ].

(** The card headed "related evidence". *)
Definition evidence_section (evidence : list Evidence) : JSX :=
  Element "div" "bg-white rounded-lg shadow-lg p-6"
    [ Element "h2" "text-2xl font-bold mb-4" [JsxString "相关证据"];
      if decide (length evidence = 0%nat)
      then Element "p" "text-gray-500" [JsxString "暂无证据数据"]
      else Element "div" "space-y-4" [JsxArray (map evidence_item evidence)] ].

Definition back_button : JSX :=
  Element "button" "mb-4 text-blue-600 hover:underline"
    [JsxString "← 返回列表"].

Definition loading_view : JSX :=
  Element "div" "p-6" [JsxString "加载中..."].

Definition not_found_view : JSX :=
  Element "div" "p-6" [JsxString "未找到干预措施"].

(** The value the component returns. *)
Definition render (s : State) : JSX :=
  if loading s then loading_view
  else match intervention s with
       | None => not_found_view
       | Some i =>
           Element "div" "p-6 max-w-4xl mx-auto"
             [ back_button;
               intervention_section i;
               evidence_section (evidence s) ]
       end.

End InterventionDetail.

(** ** [components/LoginPage.tsx] *)

Module LoginPage.

Record State : Type := {
  formData : LoginRequest.t;
  error : string;
  loading : bool
}.

Definition initial : State :=
  {| formData := LoginRequest.mk "" ""; error := ""; loading := false |}.

Definition setError (v : string) : M (State * World) unit :=
  set_state (fun s =>
    {| formData := formData s; error := v; loading := loading s |}).

Definition setLoading (v : bool) : M (State * World) unit :=
  set_state (fun s =>
    {| formData := formData s; error := error s; loading := v |}).

(** The handler is written against the object imported from
    [@/services/auth]; [e.preventDefault()] has no effect on the modelled
    state. *)
Definition handleSubmit (authApi : AuthApi.t) : M (State * World) unit :=
  formData <- gets (fun sw => formData (fst sw));;
  setError "";;
  setLoading true;;
  try_finally
    (try_catch
       (p <- io (AuthApi.login authApi formData);;
        response <- await p;;
        io (localStorage_setItem "access_token"
              (Token.access_token (AxiosResponse.data response)));;
        io (localStorage_setItem "refresh_token"
              (Token.refresh_token (AxiosResponse.data response)));;
        io (navigate "/" None))
       (fun err => setError (or_else (response_detail err) "登录失败")))
    (setLoading false).

(** [{error && (<div className=...>{error}</div>)}] *)
Definition error_banner (s : State) : JSX :=
  js_and (JsxString (error s))
    (Element "div"
       "mb-4 p-3 bg-red-50 border border-red-200 rounded-md text-red-700"
       [JsxString (error s)]).

End LoginPage.

(** ** [components/RegisterPage.tsx] *)

Module RegisterPage.

Record State : Type := {
  formData : RegisterRequest.t;
  confirmPassword : string;
  error : string;
  loading : bool
}.

Definition initial : State :=
  {| formData := RegisterRequest.mk "" "" "" (Some "");
     confirmPassword := "";
     error := "";
     loading := false |}.

Definition setError (v : string) : M (State * World) unit :=
  set_state (fun s =>
    {| formData := formData s; confirmPassword := confirmPassword s;
       error := v; loading := loading s |}).

Definition setLoading (v : bool) : M (State * World) unit :=
  set_state (fun s =>
    {| formData := formData s; confirmPassword := confirmPassword s;
       error := error s; loading := v |}).

Definition handleSubmit (authApi : AuthApi.t) : M (State * World) unit :=
  s <- gets fst;;
  setError "";;
  if decide (RegisterRequest.password (formData s) ≠ confirmPassword s)
  then setError "两次输入的密码不一致"
  else if (String.length (RegisterRequest.password (formData s)) <? 8)%nat
  then setError "密码长度至少为8位"
  else
    setLoading true;;
    try_finally
      (try_catch
         (p <- io (AuthApi.register authApi (formData s));;
          _ <- await p;;
          io (navigate "/login" (Some "注册成功，请登录")))
         (fun err => setError (or_else (response_detail err) "注册失败")))
      (setLoading false).

(** [{error && (<div className=...>{error}</div>)}] *)
Definition error_banner (s : State) : JSX :=
  js_and (JsxString (error s))
    (Element "div"
       "mb-4 p-3 bg-red-50 border border-red-200 rounded-md text-red-700"
       [JsxString (error s)]).

End RegisterPage.

(** ** [types/index.ts]: the label tables *)

Definition categoryLabels (c : Category) : string :=
  match c with
  | nutrition => "营养"
  | exercise => "运动"
  | sleep => "睡眠"
  | supplement => "补充剂"
  | medical => "医疗"
  end.

Definition evidenceLevelLabels : gmap Z string :=
  {[ 1 := "一级 (高质量RCT/Meta分析)";
     2 := "二级 (质量较好的RCT/观察性研究)";
     3 := "三级 (病例对照/队列研究)";
     4 := "四级 (专家意见/机制研究)" ]}.

(** ** [components/Dashboard.tsx] *)

Module Dashboard.

Record State : Type := {
  topInterventions : list InterventionWithScores.t;
  loading : bool
}.

Definition initial : State :=
  {| topInterventions := []; loading := true |}.

Definition setTopInterventions (v : list InterventionWithScores.t)
  : M (State * World) unit :=
  set_state (fun s => {| topInterventions := v; loading := loading s |}).

Definition setLoading (v : bool) : M (State * World) unit :=
  set_state (fun s =>
    {| topInterventions := topInterventions s; loading := v |}).

Definition loadTopInterventions : M (State * World) unit :=
  setLoading true;;
  try_finally
    (try_catch
       (p <- io (recommendationsApi.getTopInterventions (Some 10));;
        response <- await p;;
        setTopInterventions (AxiosResponse.data response))
       (fun error =>
          io (console_error "Failed to load top interventions:" error)))
    (setLoading false).

End Dashboard.

(** ** [App.tsx]: the routes

    React Router matches the path of the location against the [path] of
    each route, segment by segment: a static segment matches itself without
    regard to case, a [:name] segment matches any non-empty segment, and
    trailing slashes are ignored. *)

Module App.

Inductive Page : Type :=
| DashboardPage
| InterventionListPage
| InterventionDetailPage (interventionId : number).

Inductive Segment : Type :=
| Static (s : string)
| Param (name : string).

(** [<Route path="/" element={<Dashboard />} />],
    [<Route path="/interventions" element={<InterventionList />} />],
    [<Route path="/interventions/:id"
            element={<InterventionDetail interventionId={1} />} />] *)
Definition routes : list (list Segment * Page) :=
  [ ([], DashboardPage);
    ([Static "interventions"], InterventionListPage);
    ([Static "interventions"; Param "id"], InterventionDetailPage 1) ].

Definition lower_ascii (c : ascii) : ascii :=
  let n := N_of_ascii c in
  if ((65 <=? n) && (n <=? 90))%N then ascii_of_N (n + 32) else c.

Fixpoint lower (s : string) : string :=
  match s with
  | EmptyString => EmptyString
  | String c rest => String (lower_ascii c) (lower rest)
  end.

Definition match_segment (p : Segment) (s : string) : bool :=
  match p with
  | Static x => bool_decide (lower x = lower s)
  | Param _ => bool_decide (s ≠ "")
  end.

Fixpoint match_pattern (pattern : list Segment) (segments : list string)
  : bool :=
  match pattern, segments with
  | [], [] => true
  | p :: pattern', s :: segments' =>
      match_segment p s && match_pattern pattern' segments'
  | _, _ => false
  end.

Fixpoint first_match (table : list (list Segment * Page))
  (segments : list string) : option Page :=
  match table with
  | [] => None
  | (pattern, page) :: rest =>
      if match_pattern pattern segments then Some page
      else first_match rest segments
  end.

Fixpoint drop_trailing_empty (l : list string) : list string :=
  match l with
  | [] => []
  | x :: rest =>
      match drop_trailing_empty rest with
      | [] => if decide (x = "") then [] else [x]
      | rest' => x :: rest'
      end
  end.

(** The segments of a path that starts with a slash. *)
Definition path_segments (pathname : string) : list string :=
  drop_trailing_empty (tail (split_on "/" pathname)).

(** The page the router shows for a location, if any. *)
Definition page_at (pathname : string) : option Page :=
  first_match routes (path_segments pathname).

(** The links of the navigation bar. *)
Definition nav_links : list string := ["/"; "/"; "/interventions"].

End App.

(** [JSON.parse]-like reading of a decimal numeral, the inverse of
    [number_to_string]. *)
Definition parse_number (s : string) : option number :=
  Z.of_int <$> NilZero.int_of_string s.

(** ** Vocabulary of the properties *)

(** [m] issues exactly the request [r]: the request is recorded once, the
    rest of the world is left alone, and the caller gets the very promise
    of the transport for [r], fulfilled or rejected. *)
Definition issues {t : ty}
  (m : M World (Promise (AxiosResponse.t (interp t)))) (r : Request) : Prop :=
  forall w, m w = (Returned (server w t (netlog w) r), log_request r w).

(** A request made through the shared client [api]. *)
Definition via_api (m : Method) (path : string) (p : option Params)
  (d : option Body) (h : gmap string string) : Request :=
  {| method := m;
     baseURL := Axios.defaults_baseURL api;
     timeout := Axios.defaults_timeout api;
     url := path;
     params := p;
     data := d;
     headers := h |}.

Definition wire_value (v : QueryValue) : string :=
  match v with
  | QNum n => number_to_string n
  | QStr s => s
  end.

(** All the query parameters the server receives with a request: those
    written into the URL string, then those of the [params] object. *)
Definition query_received (r : Request) : list (string * string) :=
  url_query (url r)
  ++ map (fun kv => (fst kv, wire_value (snd kv))) (serialize_params (params r)).

(** The caller of [interventionsApi.list] provided the parameter [key] with
    the value [v]. *)
Definition provided (p : option ListParams.t) (key : string)
  (v : QueryValue) : Prop :=
  exists q, p = Some q /\
    ((key = "skip" /\ exists n, ListParams.skip q = Some n /\ v = QNum n)
     \/ (key = "limit" /\ exists n, ListParams.limit q = Some n /\ v = QNum n)
     \/ (key = "category" /\
         exists c, ListParams.category q = Some c /\ v = QStr c)).

(** The confidence interval of an effect size brackets its value. *)
Definition ci_invariant (e : Evidence) : Prop :=
  match Evidence.effect_size e with
  | Some es =>
      fst (EffectSize.ci_95 es) <= EffectSize.value es
      /\ EffectSize.value es <= snd (EffectSize.ci_95 es)
  | None => True
  end.

(** Every evidence payload the server sends satisfies the invariant. *)
Definition server_respects_ci (srv : Server) : Prop :=
  (forall log r resp,
      outcome (srv TEvidence log r) = Fulfilled resp ->
      ci_invariant (AxiosResponse.data resp))
  /\ (forall log r resp,
      outcome (srv (TArray TEvidence) log r) = Fulfilled resp ->
      Forall ci_invariant (AxiosResponse.data resp)).

(** No character of [s] is [c]. *)
Fixpoint lacks (c : ascii) (s : string) : bool :=
  match s with
  | EmptyString => true
  | String x rest => negb (Ascii.eqb x c) && lacks c rest
  end.

(** The characters of a decimal numeral: the digits and the minus sign. *)
Definition numeral_char (x : ascii) : bool :=
  ((48 <=? N_of_ascii x) && (N_of_ascii x <=? 57))%N || Ascii.eqb x "-".

Fixpoint numeral (s : string) : bool :=
  match s with
  | EmptyString => true
  | String x rest => numeral_char x && numeral rest
  end.

(** The call [m] in the world [w] returns a promise fulfilled with [v]. *)
Definition fulfilled_with {T} (m : M World (Promise T)) (w : World) (v : T)
  : Prop :=
  exists p w', m w = (Returned p, w') /\ outcome p = Fulfilled v.

(** What an optional string field guarded by [&&] displays as a paragraph,
    and what an optional number field guarded by [&&] displays in a row:
    the labelled [span] with the texts [before], the numeral and [after],
    or the bare numeral 0. *)
Definition string_field_display (cls : string) (o : option string)
  : list DOM :=
  match o with
  | Some s => if decide (s = "") then [] else [Node "p" cls [Text s]]
  | None => []
  end.

Definition number_field_display (before after : list DOM)
  (o : option number) : list DOM :=
  match o with
  | Some n =>
      if decide (n = 0) then [Text "0"]
      else [Node "span" "" (before ++ [Text (number_to_string n)] ++ after)]
  | None => []
  end.

(** Every character of [s] satisfies [P]. *)
Fixpoint all_chars (P : ascii -> bool) (s : string) : bool :=
  match s with
  | EmptyString => true
  | String x rest => P x && all_chars P rest
  end.

(** Letters, digits, [-] and [_]: the characters that no step of URL
    parsing touches.  A query may hold [=] and [&] besides. *)
Definition plain_char (c : ascii) : bool :=
  let n := N_of_ascii c in
  ((48 <=? n) && (n <=? 57))%N || ((65 <=? n) && (n <=? 90))%N
  || ((97 <=? n) && (n <=? 122))%N || Ascii.eqb c "-" || Ascii.eqb c "_".

Definition query_char (c : ascii) : bool :=
  plain_char c || Ascii.eqb c "=" || Ascii.eqb c "&".







(** *** Sample data *)

Definition blank_intervention : Intervention :=
  Intervention.mk (F := Required) 0 "" None None nutrition None 1 "" "".

Definition blank_evidence : Evidence :=
  Evidence.mk (F := Required) 0 0 None None None None None None None None "".

Definition blank_health_profile : HealthProfile.t :=
  HealthProfile.mk None None None None None None None None None None None None
    None None None.

Definition blank (t : ty) : interp t :=
  match t with
  | TAny => JNull
  | TUser => User.mk (F := Required) 0 "" "" None true false "" ""
  | TToken => Token.mk "" "" "bearer"
  | THealthProfile => blank_health_profile
  | TIntervention => blank_intervention
  | TEvidence => blank_evidence
  | TRecommendation =>
      Recommendation.mk (F := Required) 0 "" 0 0 None None None None ""
  | TInterventionWithScores => InterventionWithScores.mk 0 "" "" 1 0 0 0
  | TArray _ => []
  end.

(** A server that answers every request with status 200 and blank data. *)
Definition ok_server : Server :=
  fun t _ _ =>
    {| settled_at := 1%nat;
       outcome := Fulfilled (AxiosResponse.mk (blank t) 200) |}.

(** A server that answers every request with [status] and the error body
    [{ detail }]. *)
Definition failing_server (status : Z) (detail : option string) : Server :=
  fun t _ _ =>
    {| settled_at := 1%nat;
       outcome := Rejected (AxiosError (Some
         {| err_status := status;
            err_data := Some {| detail := detail |} |})) |}.

(** An evidence record whose interval does not contain the value, and a
    server that sends it for every single-evidence request. *)
Definition skewed_evidence : Evidence :=
  Evidence.mk (F := Required) 7 1 (Some "randomized_trial") None None
    (Some 1000) (Some 365)
    (Some (EffectSize.mk "hazard_ratio" 5 (1, 2))) None None "2024-01-01".

Definition skewed_server : Server :=
  fun t =>
    match t return list Request -> Request ->
                   Promise (AxiosResponse.t (interp t)) with
    | TEvidence => fun _ _ =>
        {| settled_at := 1%nat;
           outcome := Fulfilled (AxiosResponse.mk skewed_evidence 200) |}
    | t' => ok_server t'
    end.

(** A server that answers the token requests with a fixed pair. *)
Definition token_server : Server :=
  fun t =>
    match t return list Request -> Request ->
                   Promise (AxiosResponse.t (interp t)) with
    | TToken => fun _ _ =>
        {| settled_at := 1%nat;
           outcome := Fulfilled
             (AxiosResponse.mk (Token.mk "acc-1" "ref-1" "bearer") 200) |}
    | t' => ok_server t'
    end.

(** An intervention, an evidence record whose interval contains the
    value, and a server that sends them. *)
Definition sample_intervention : Intervention :=
  Intervention.mk (F := Required) 1 "Vitamin D" None
    (Some "Daily supplementation") supplement None 2 "2024-01-01"
    "2024-01-02".

Definition sound_evidence : Evidence :=
  Evidence.mk (F := Required) 7 1 (Some "meta_analysis") None
    (Some "Smith 2020") (Some 1000) (Some 365)
    (Some (EffectSize.mk "hazard_ratio" 85 (78, 92))) None (Some 9)
    "2024-01-01".

Definition sound_server : Server :=
  fun t =>
    match t return list Request -> Request ->
                   Promise (AxiosResponse.t (interp t)) with
    | TIntervention => fun _ _ =>
        {| settled_at := 1%nat;
           outcome := Fulfilled (AxiosResponse.mk sample_intervention 200) |}
    | TEvidence => fun _ _ =>
        {| settled_at := 1%nat;
           outcome := Fulfilled (AxiosResponse.mk sound_evidence 200) |}
    | TArray TEvidence => fun _ _ =>
        {| settled_at := 1%nat;
           outcome := Fulfilled (AxiosResponse.mk [sound_evidence] 200) |}
    | t' => ok_server t'
    end.

Definition fresh_world (srv : Server) : World :=
  {| server := srv;
     netlog := [];
     localStorage := ∅;
     console := [];
     history := [] |}.

(** * Properties *)

(** ** Strings: splitting a URL whose query holds a decimal numeral *)

Lemma lacks_cons c x rest :
  lacks c (String x rest) = true -> Ascii.eqb x c = false /\ lacks c rest = true.
Proof.
  simpl. destruct (Ascii.eqb x c); simpl; intros H; [discriminate | auto].
Qed.

Lemma lacks_app c a b :
  lacks c a = true -> lacks c b = true -> lacks c (a +:+ b) = true.
Proof.
  induction a as [|x rest IH]; simpl; [auto|].
  destruct (Ascii.eqb x c); simpl; [discriminate | auto].
Qed.

Lemma cut_at_lacks c s : lacks c s = true -> cut_at c s = (s, None).
Proof.
  induction s as [|x rest IH]; [reflexivity|].
  intros H. apply lacks_cons in H as [Hx Hrest].
  simpl. rewrite Hx, (IH Hrest). reflexivity.
Qed.

Lemma cut_at_app c a b :
  lacks c a = true -> cut_at c (a +:+ String c b) = (a, Some b).
Proof.
  induction a as [|x rest IH].
  - intros _. simpl. rewrite Ascii.eqb_refl. reflexivity.
  - intros H. apply lacks_cons in H as [Hx Hrest].
    simpl. rewrite Hx, (IH Hrest). reflexivity.
Qed.

Lemma split_on_lacks c s : lacks c s = true -> split_on c s = [s].
Proof.
  induction s as [|x rest IH]; [reflexivity|].
  intros H. apply lacks_cons in H as [Hx Hrest].
  simpl. rewrite Hx, (IH Hrest). reflexivity.
Qed.

Lemma form_decode_lacks s :
  lacks "+" s = true -> lacks "%" s = true -> form_decode s = s.
Proof.
  induction s as [|x rest IH]; [reflexivity|].
  intros Hplus Hpct.
  apply lacks_cons in Hplus as [Hplus Hp].
  apply lacks_cons in Hpct as [Hpct Hq].
  simpl. rewrite Hplus, Hpct, (IH Hp Hq). reflexivity.
Qed.

Lemma string_of_uint_numeral d : numeral (NilEmpty.string_of_uint d) = true.
Proof. induction d; simpl; auto. Qed.

Lemma number_to_string_numeral n : numeral (number_to_string n) = true.
Proof.
  unfold number_to_string, NilZero.string_of_int, NilZero.string_of_uint.
  destruct (Z.to_int n) as [d|d]; [|change (numeral_char "-") with true; simpl];
    destruct d; try reflexivity; apply (string_of_uint_numeral (_ _)).
Qed.

Lemma numeral_lacks c s :
  numeral_char c = false -> numeral s = true -> lacks c s = true.
Proof.
  intros Hc. induction s as [|x rest IH]; [reflexivity|].
  simpl. intros H. apply andb_prop in H as [Hx Hrest].
  rewrite (IH Hrest), andb_true_r.
  destruct (Ascii.eqb_spec x c) as [->|]; [congruence | reflexivity].
Qed.

(** The server reads [path?key=value] as the path [path] with the one
    parameter [key = value], provided the value has none of the characters
    that mean something in a query. *)
Lemma url_with_value path key v :
  lacks "#" path = true -> lacks "?" path = true ->
  lacks "#" key = true -> lacks "&" key = true -> lacks "=" key = true ->
  form_decode key = key ->
  lacks "#" v = true -> lacks "&" v = true ->
  lacks "+" v = true -> lacks "%" v = true ->
  let u := path +:+ String "?" (key +:+ String "=" v) in
  url_path u = path /\ url_query u = [(key, v)].
Proof.
  intros Hp1 Hp2 Hk1 Hk2 Hk3 Hk4 Hv1 Hv2 Hv3 Hv4 u.
  assert (Hfrag : cut_at "#" u = (u, None)).
  { apply cut_at_lacks. unfold u. apply lacks_app; [assumption|].
    simpl. apply lacks_app; [assumption|]. simpl. assumption. }
  unfold url_path, url_query. rewrite Hfrag. simpl fst.
  unfold u. rewrite cut_at_app by assumption. simpl fst. simpl snd.
  split; [reflexivity|].
  unfold parse_query.
  rewrite split_on_lacks
    by (apply lacks_app; [assumption | simpl; assumption]).
  assert (Hne : key +:+ String "=" v <> EmptyString)
    by (destruct key; discriminate).
  cbn [filter list_filter]. destruct (decide _) as [_|Hd]; [|contradiction Hd].
  cbn [map]. unfold parse_pair. rewrite cut_at_app by assumption.
  cbn [default]. rewrite Hk4, form_decode_lacks by assumption. reflexivity.
Qed.

Lemma url_with_numeral path key n :
  lacks "#" path = true -> lacks "?" path = true ->
  lacks "#" key = true -> lacks "&" key = true -> lacks "=" key = true ->
  form_decode key = key ->
  let u := path +:+ String "?" (key +:+ String "=" (number_to_string n)) in
  url_path u = path /\ url_query u = [(key, number_to_string n)].
Proof.
  intros. apply url_with_value; try assumption;
    apply numeral_lacks; try reflexivity; apply number_to_string_numeral.
Qed.

(** ** The access modules of [services/api.ts] *)

(** In [services/api.ts] the identifier [api] is the shared client. *)
Lemma api_ts_binds_api :
  resolve api_ts_scope "api" = Some (ClientInstance api).
Proof. reflexivity. Qed.

(** Each function of [interventionsApi] is one request through [api],
    determined by the arguments alone. *)
Lemma interventionsApi_requests :
  (forall p, issues (interventionsApi.list p)
     (via_api GET "/interventions" (OfList <$> p) None ∅))
  /\ (forall id, issues (interventionsApi.get id)
     (via_api GET ("/interventions/" +:+ number_to_string id) None None ∅))
  /\ (forall d, issues (interventionsApi.create d)
     (via_api POST "/interventions" None (Some (InterventionBody d)) ∅))
  /\ (forall id d, issues (interventionsApi.update id d)
     (via_api PUT ("/interventions/" +:+ number_to_string id) None
        (Some (InterventionBody d)) ∅))
  /\ (forall id, issues (interventionsApi.delete id)
     (via_api DELETE ("/interventions/" +:+ number_to_string id) None None ∅))
  /\ (forall q, issues (interventionsApi.search q)
     (via_api GET ("/interventions/search/by-name?query=" +:+ q) None None ∅))
  /\ (forall level, issues (interventionsApi.getByEvidenceLevel level)
     (via_api GET
        ("/interventions/by-evidence-level/" +:+ number_to_string level)
        None None ∅)).
Proof. repeat split. Qed.

(** Each function of [evidenceApi] is one request through [api]. *)
Lemma evidenceApi_requests :
  (forall id p, issues (evidenceApi.list id p)
     (via_api GET ("/evidence/intervention/" +:+ number_to_string id)
        (OfPage <$> p) None ∅))
  /\ (forall id, issues (evidenceApi.get id)
     (via_api GET ("/evidence/" +:+ number_to_string id) None None ∅))
  /\ (forall d, issues (evidenceApi.create d)
     (via_api POST "/evidence" None (Some (EvidenceBody d)) ∅))
  /\ (forall q, issues (evidenceApi.getByQuality q)
     (via_api GET ("/evidence/by-quality?min_quality=" +:+ number_to_string q)
        None None ∅))
  /\ issues evidenceApi.getMetaAnalyses
     (via_api GET "/evidence/meta-analyses" None None ∅)
  /\ issues evidenceApi.getRandomizedTrials
     (via_api GET "/evidence/randomized-trials" None None ∅).
Proof. repeat split. Qed.

(** Each function of [recommendationsApi] is one request through [api]. *)
Lemma recommendationsApi_requests :
  (forall d, issues (recommendationsApi.create d)
     (via_api POST "/recommendations" None (Some (RecommendationBody d)) ∅))
  /\ (forall userId p, issues (recommendationsApi.getUser userId p)
     (via_api GET ("/recommendations/user/" +:+ userId) (OfPage <$> p)
        None ∅))
  /\ (forall id, issues (recommendationsApi.get id)
     (via_api GET ("/recommendations/" +:+ number_to_string id) None None ∅))
  /\ (forall limit, issues (recommendationsApi.getTopInterventions limit)
     (via_api GET
        ("/recommendations/top-interventions?limit="
         +:+ number_to_string (default 10 limit)) None None ∅)).
Proof. repeat split. Qed.

(** A rejection of the transport reaches the caller as it is: awaiting the
    promise of an [issues] call throws the transport's reason. *)
Lemma issues_propagates {t : ty}
  (m : M World (Promise (AxiosResponse.t (interp t)))) (r : Request)
  (w : World) (e : JsError) :
  issues m r ->
  outcome (server w t (netlog w) r) = Rejected e ->
  (p <- m;; await p) w = (Threw e, log_request r w).
Proof.
  intros Hm He. unfold bind. rewrite (Hm w). unfold await. rewrite He.
  reflexivity.
Qed.

(** Nothing is cached: a second call is a second request, answered by the
    transport on its own. *)
Lemma issues_twice {t : ty}
  (m : M World (Promise (AxiosResponse.t (interp t)))) (r : Request)
  (w : World) :
  issues m r ->
  (p1 <- m;; p2 <- m;; ret (p1, p2)) w
  = (Returned (server w t (netlog w) r, server w t (netlog w ++ [r]) r),
     log_request r (log_request r w)).
Proof.
  intros Hm. unfold bind. rewrite (Hm w), (Hm (log_request r w)).
  reflexivity.
Qed.

(** What [serialize_params] yields for the list parameters. *)
Lemma serialize_list_params (p : option ListParams.t) key v :
  (key, v) ∈ serialize_params (OfList <$> p) <-> provided p key v.
Proof.
  unfold provided. destruct p as [[sk li ca]|]; simpl.
  - rewrite !elem_of_app. unfold query_entry.
    split.
    + intros H. exists (ListParams.mk sk li ca). split; [reflexivity|]. simpl.
      destruct H as [H|[H|H]].
      * destruct sk; [|by apply elem_of_nil in H].
        apply list_elem_of_singleton in H. injection H as -> ->. left. eauto.
      * destruct li; [|by apply elem_of_nil in H].
        apply list_elem_of_singleton in H. injection H as -> ->.
        right; left. eauto.
      * destruct ca; [|by apply elem_of_nil in H].
        apply list_elem_of_singleton in H. injection H as -> ->.
        right; right. eauto.
    + intros (q & Hq & H). injection Hq as <-. simpl in H.
      destruct H as [(-> & n & -> & ->)|[(-> & n & -> & ->)|(-> & c & -> & ->)]].
      * left. apply list_elem_of_singleton. reflexivity.
      * right; left. apply list_elem_of_singleton. reflexivity.
      * right; right. apply list_elem_of_singleton. reflexivity.
  - split; [intros H; by apply elem_of_nil in H|].
    intros (q & Hq & _). discriminate.
Qed.

(** C1. Every call [interventionsApi.list(params)] is one GET request to
    [/interventions] through the shared client.  The URL string carries no
    query of its own, and the query axios builds from [params] has an entry
    for a key exactly when the caller provided that key, with the provided
    value, and no key twice; without an argument there is no query parameter
    at all. *)
Theorem interventionsApi_list_forwards_exactly (p : option ListParams.t) :
  let r := via_api GET "/interventions" (OfList <$> p) None ∅ in
  issues (interventionsApi.list p) r
  /\ method r = GET
  /\ url_path (url r) = "/interventions"
  /\ url_query (url r) = []
  /\ (forall key v, (key, v) ∈ serialize_params (params r) <-> provided p key v)
  /\ NoDup (map fst (serialize_params (params r)))
  /\ query_received (via_api GET "/interventions" (OfList <$> None) None ∅)
     = [].
Proof.
  repeat split; try apply serialize_list_params.
  destruct p as [[[sk|] [li|] [ca|]]|]; simpl;
    apply (bool_decide_unpack _); reflexivity.
Qed.

(** Case analysis on the settlement of the promises a handler awaits. *)
Ltac by_outcomes :=
  repeat match goal with
         | |- context [match ?o with Fulfilled _ => _ | Rejected _ => _ end] =>
             destruct o; simpl
         end;
  try reflexivity.

(** The list page passes the selected category and nothing else, and no
    parameter for the choice "all". *)
Lemma loadInterventions_request (s : InterventionList.State) (w : World) :
  let p := if decide (InterventionList.filter s = "all") then None
           else Some (ListParams.mk None None (Some (InterventionList.filter s))) in
  netlog (snd (snd (InterventionList.loadInterventions (s, w))))
  = netlog w ++ [via_api GET "/interventions" (OfList <$> p) None ∅].
Proof.
  unfold InterventionList.loadInterventions, bind, try_finally, try_catch,
    gets, await.
  simpl.
  destruct (decide (InterventionList.filter s ≠ "all")) as [Hne|Heq];
    destruct (decide (InterventionList.filter s = "all")) as [He|Hn];
    try contradiction; simpl; by_outcomes.
Qed.

(** C2. [recommendationsApi.getTopInterventions()] is one GET request whose
    path is [/recommendations/top-interventions] and whose only query
    parameter is [limit=10]; with an explicit limit [n] it is the same
    request with [limit=n]. *)
Theorem getTopInterventions_limit (n : number) :
  safe_integer n ->
  let request_for (k : number) :=
    via_api GET
      ("/recommendations/top-interventions?limit=" +:+ number_to_string k)
      None None ∅ in
  (issues (recommendationsApi.getTopInterventions None) (request_for 10)
   /\ method (request_for 10) = GET
   /\ url_path (url (request_for 10)) = "/recommendations/top-interventions"
   /\ query_received (request_for 10) = [("limit", "10")])
  /\ (issues (recommendationsApi.getTopInterventions (Some n)) (request_for n)
      /\ method (request_for n) = GET
      /\ url_path (url (request_for n)) = "/recommendations/top-interventions"
      /\ query_received (request_for n) = [("limit", number_to_string n)]).
Proof.
  intros _ request_for.
  split; [repeat split|].
  destruct (url_with_numeral "/recommendations/top-interventions" "limit" n)
    as [Hpath Hquery]; try reflexivity.
  repeat split; [exact Hpath|].
  unfold query_received. simpl url. simpl params.
  change ("/recommendations/top-interventions?limit=" +:+ number_to_string n)
    with ("/recommendations/top-interventions"
          +:+ String "?" ("limit" +:+ String "=" (number_to_string n))).
  rewrite Hquery. reflexivity.
Qed.

Lemma getTopInterventions_limit_5 :
  safe_integer 5
  /\ issues (recommendationsApi.getTopInterventions (Some 5))
       (via_api GET "/recommendations/top-interventions?limit=5" None None ∅)
  /\ query_received
       (via_api GET "/recommendations/top-interventions?limit=5" None None ∅)
     = [("limit", "5")].
Proof.
  assert (H5 : safe_integer 5) by (unfold safe_integer; lia).
  split; [exact H5|].
  destruct (getTopInterventions_limit 5 H5) as [_ (Hissues & _ & _ & Hquery)].
  split; [exact Hissues | exact Hquery].
Defined.

(** On a query string without [#], [&], [+] and [%] the search request
    does carry the one parameter [query] with that value. *)
Lemma search_plain_query (q : string) :
  lacks "#" q = true -> lacks "&" q = true ->
  lacks "+" q = true -> lacks "%" q = true ->
  let r := via_api GET ("/interventions/search/by-name?query=" +:+ q)
             None None ∅ in
  issues (interventionsApi.search q) r
  /\ url_path (url r) = "/interventions/search/by-name"
  /\ query_received r = [("query", q)].
Proof.
  intros H1 H2 H3 H4 r.
  destruct (url_with_value "/interventions/search/by-name" "query" q)
    as [Hpath Hquery]; try reflexivity; try assumption.
  split; [intros w; reflexivity|]. split; [exact Hpath|].
  unfold query_received. simpl url. simpl params.
  change ("/interventions/search/by-name?query=" +:+ q)
    with ("/interventions/search/by-name"
          +:+ String "?" ("query" +:+ String "=" q)).
  rewrite Hquery. reflexivity.
Qed.

(** C7, at the query string [D3&K2].  [interventionsApi.search] writes the
    string into the URL as it is, so the server receives two parameters:
    [query] with the value [D3], and [K2] with an empty value. *)
Theorem search_ampersand_splits_query :
  let r := via_api GET "/interventions/search/by-name?query=D3&K2"
             None None ∅ in
  issues (interventionsApi.search "D3&K2") r
  /\ url_path (url r) = "/interventions/search/by-name"
  /\ query_received r = [("query", "D3"); ("K2", "")]
  /\ query_received r <> [("query", "D3&K2")].
Proof.
  repeat split. discriminate.
Qed.

(** ** The access module of [services/auth.ts] *)

(** [services/auth.ts] has no binding for [api]. *)
Lemma auth_ts_lacks_api : resolve auth_ts_scope "api" = None.
Proof. reflexivity. Qed.

(** So every function of [authApi] throws when it is called, and nothing is
    sent. *)
Lemma authApi_throws (w : World) :
  (forall d, AuthApi.register authApi d w = (Threw (ReferenceError "api"), w))
  /\ (forall d, AuthApi.login authApi d w = (Threw (ReferenceError "api"), w))
  /\ (forall t, AuthApi.logout authApi t w = (Threw (ReferenceError "api"), w))
  /\ (forall t,
        AuthApi.refreshToken authApi t w = (Threw (ReferenceError "api"), w))
  /\ (forall t,
        AuthApi.getCurrentUser authApi t w = (Threw (ReferenceError "api"), w))
  /\ (forall t d,
        AuthApi.updateCurrentUser authApi t d w
        = (Threw (ReferenceError "api"), w))
  /\ (forall t d,
        AuthApi.createHealthProfile authApi t d w
        = (Threw (ReferenceError "api"), w))
  /\ (forall t d,
        AuthApi.updateHealthProfile authApi t d w
        = (Threw (ReferenceError "api"), w))
  /\ (forall t,
        AuthApi.getHealthProfile authApi t w
        = (Threw (ReferenceError "api"), w)).
Proof. repeat split. Qed.

(** The same functions, once [api] is bound to a client [c], are one
    request each through [c]. *)
Lemma authApi_with_client_requests (c : Axios.Instance) :
  let a := authApi_with (Some (ClientInstance c)) in
  let via m path d h :=
    {| method := m; baseURL := Axios.defaults_baseURL c;
       timeout := Axios.defaults_timeout c; url := path; params := None;
       data := d; headers := h |} in
  let auth token : gmap string string :=
    {[ "Authorization" := "Bearer " +:+ token ]} in
  (forall d, issues (t := TUser) (AuthApi.register a d)
     (via POST "/auth/register" (Some (RegisterBody d)) ∅))
  /\ (forall d, issues (t := TToken) (AuthApi.login a d)
     (via POST "/auth/login" (Some (LoginBody d)) ∅))
  /\ (forall t, issues (t := TAny) (AuthApi.logout a t)
     (via POST "/auth/logout" (Some (RefreshTokenBody t)) ∅))
  /\ (forall t, issues (t := TToken) (AuthApi.refreshToken a t)
     (via POST "/auth/refresh" (Some (RefreshTokenBody t)) ∅))
  /\ (forall t, issues (t := TUser) (AuthApi.getCurrentUser a t)
     (via GET "/auth/me" None (auth t)))
  /\ (forall t d, issues (t := TUser) (AuthApi.updateCurrentUser a t d)
     (via PUT "/auth/me" (Some (UserBody d)) (auth t)))
  /\ (forall t d,
        issues (t := THealthProfile) (AuthApi.createHealthProfile a t d)
     (via POST "/auth/health-profile" (Some (HealthProfileBody d)) (auth t)))
  /\ (forall t d,
        issues (t := THealthProfile) (AuthApi.updateHealthProfile a t d)
     (via PUT "/auth/health-profile" (Some (HealthProfileBody d)) (auth t)))
  /\ (forall t, issues (t := THealthProfile) (AuthApi.getHealthProfile a t)
     (via GET "/auth/health-profile" None (auth t))).
Proof. repeat split. Qed.

(** C3, at [authApi.login({ username: "alice", password: "correct horse" })].
    The call is not a mapping to an HTTP call: it throws
    [ReferenceError: api is not defined], in every world, and records no
    request. *)
Theorem authApi_login_issues_no_request :
  let d := LoginRequest.mk "alice" "correct horse" in
  (forall w, AuthApi.login authApi d w = (Threw (ReferenceError "api"), w))
  /\ ~ (exists r, issues (t := TToken) (AuthApi.login authApi d) r).
Proof.
  split.
  - intros w. apply authApi_throws.
  - intros [r Hr]. specialize (Hr (fresh_world ok_server)).
    discriminate Hr.
Qed.

(** C4, at [authApi.getCurrentUser("token-1")].  The shared client [api] of
    [services/api.ts] has the base path [/api/v1] and the timeout 10000,
    but [services/auth.ts] does not bind [api] and declares the base path a
    second time; the call throws and reaches no client. *)
Theorem authApi_not_routed_through_api :
  resolve api_ts_scope "api"
  = Some (ClientInstance (Axios.create "/api/v1" 10000))
  /\ resolve auth_ts_scope "api" = None
  /\ resolve api_ts_scope "API_BASE" = Some (StringConst "/api/v1")
  /\ resolve auth_ts_scope "API_BASE" = Some (StringConst "/api/v1")
  /\ (forall w,
        AuthApi.getCurrentUser authApi "token-1" w
        = (Threw (ReferenceError "api"), w)).
Proof.
  repeat split.
Qed.

(** ** The login form *)

Lemma or_else_nonempty a b : b <> "" -> or_else a b <> "".
Proof.
  intros Hb. unfold or_else. destruct a as [s|]; [|exact Hb].
  destruct (decide (s = "")); assumption.
Qed.

(** A non-empty error is shown in the banner. *)
Lemma login_banner_shows (s : LoginPage.State) :
  LoginPage.error s <> "" ->
  react_render (LoginPage.error_banner s)
  = [Node "div"
       "mb-4 p-3 bg-red-50 border border-red-200 rounded-md text-red-700"
       [Text (LoginPage.error s)]].
Proof.
  intros Hne. unfold LoginPage.error_banner, js_and. simpl.
  rewrite bool_decide_true by exact Hne. simpl.
  destruct (decide (LoginPage.error s = "")); [contradiction | reflexivity].
Qed.

(** The handler is studied with any object [a] in the place of [authApi]
    whose [login], for the form data at hand, issues one request [r]. *)
Section LoginAgainstInterface.

Variable a : AuthApi.t.
Variable r : Request.
Variable s : LoginPage.State.
Variable w : World.
Hypothesis login_issues :
  issues (t := TToken) (AuthApi.login a (LoginPage.formData s)) r.

(** Whatever the login request is rejected with, the handler stores no
    token and does not navigate; it sets the error and clears the loading
    flag. *)
Lemma login_rejected (e : JsError) :
  outcome (server w TToken (netlog w) r) = Rejected e ->
  LoginPage.handleSubmit a (s, w)
  = (Returned tt,
     ({| LoginPage.formData := LoginPage.formData s;
         LoginPage.error := or_else (response_detail e) "登录失败";
         LoginPage.loading := false |},
      log_request r w)).
Proof.
  intros Hout.
  unfold LoginPage.handleSubmit, bind, try_finally, try_catch, gets, await.
  simpl. rewrite (login_issues w). simpl in Hout |- *. rewrite Hout.
  reflexivity.
Qed.

(** C5. Let the server answer the login request with status 401.  Then the
    form shows an error message, which is the [detail] of the response body
    when the body has a non-empty one and the fallback text otherwise; the
    message is not empty and the banner displays it.  No token is written:
    [localStorage] is what it was, and so is the router history; the one
    login request is the only effect on the world. *)
Theorem login_401_shows_error_and_stores_nothing (resp : ErrorResponse) :
  outcome (server w TToken (netlog w) r) = Rejected (AxiosError (Some resp)) ->
  err_status resp = 401 ->
  let msg :=
    match err_data resp with
    | Some {| detail := Some d |} => if decide (d = "") then "登录失败" else d
    | _ => "登录失败"
    end in
  let result := LoginPage.handleSubmit a (s, w) in
  fst result = Returned tt
  /\ LoginPage.error (fst (snd result)) = msg
  /\ msg <> ""
  /\ react_render (LoginPage.error_banner (fst (snd result)))
     = [Node "div"
          "mb-4 p-3 bg-red-50 border border-red-200 rounded-md text-red-700"
          [Text msg]]
  /\ LoginPage.loading (fst (snd result)) = false
  /\ localStorage (snd (snd result)) = localStorage w
  /\ history (snd (snd result)) = history w
  /\ netlog (snd (snd result)) = netlog w ++ [r].
Proof.
  intros Hout Hstatus msg result.
  assert (Hmsg : msg
                 = or_else (response_detail (AxiosError (Some resp))) "登录失败").
  { unfold msg. simpl. destruct (err_data resp) as [[[d|]]|]; reflexivity. }
  assert (Hne : msg <> "")
    by (rewrite Hmsg; apply or_else_nonempty; discriminate).
  unfold result. rewrite (login_rejected _ Hout), <- Hmsg.
  simpl. repeat split; try assumption.
  apply (login_banner_shows
           {| LoginPage.formData := LoginPage.formData s;
              LoginPage.error := msg;
              LoginPage.loading := false |}).
  exact Hne.
Qed.

(** A rejection without a response (the transport failed) gives the
    fallback text as well. *)
Lemma login_network_failure_shows_fallback :
  outcome (server w TToken (netlog w) r) = Rejected (AxiosError None) ->
  LoginPage.error (fst (snd (LoginPage.handleSubmit a (s, w)))) = "登录失败"
  /\ localStorage (snd (snd (LoginPage.handleSubmit a (s, w))))
     = localStorage w.
Proof.
  intros Hout. rewrite (login_rejected _ Hout). split; reflexivity.
Qed.

(** When the login request is fulfilled, both tokens are stored and the
    router goes to the home page. *)
Lemma login_fulfilled (resp : AxiosResponse.t Token.t) :
  outcome (server w TToken (netlog w) r) = Fulfilled resp ->
  let result := LoginPage.handleSubmit a (s, w) in
  localStorage (snd (snd result))
  = <["refresh_token" := Token.refresh_token (AxiosResponse.data resp)]>
      (<["access_token" := Token.access_token (AxiosResponse.data resp)]>
         (localStorage w))
  /\ history (snd (snd result))
     = history w ++ [{| nav_to := "/"; nav_message := None |}]
  /\ LoginPage.error (fst (snd result)) = "".
Proof.
  intros Hout result. unfold result.
  unfold LoginPage.handleSubmit, bind, try_finally, try_catch, gets, await.
  simpl. rewrite (login_issues w). simpl in Hout |- *. rewrite Hout.
  repeat split.
Qed.

End LoginAgainstInterface.

Lemma login_401_invalid_credentials :
  let a := authApi_with (Some (ClientInstance api)) in
  let w := fresh_world (failing_server 401 (Some "Invalid credentials")) in
  let s := {| LoginPage.formData := LoginRequest.mk "alice" "wrong";
              LoginPage.error := "";
              LoginPage.loading := false |} in
  let r := via_api POST "/auth/login" None
             (Some (LoginBody (LoginRequest.mk "alice" "wrong"))) ∅ in
  let resp := {| err_status := 401;
                 err_data := Some {| detail := Some "Invalid credentials" |} |} in
  issues (t := TToken) (AuthApi.login a (LoginPage.formData s)) r
  /\ outcome (server w TToken (netlog w) r) = Rejected (AxiosError (Some resp))
  /\ err_status resp = 401
  /\ LoginPage.error (fst (snd (LoginPage.handleSubmit a (s, w))))
     = "Invalid credentials"
  /\ localStorage (snd (snd (LoginPage.handleSubmit a (s, w)))) = ∅.
Proof.
  intros a w s r resp.
  assert (Hlogin : issues (t := TToken)
                     (AuthApi.login a (LoginPage.formData s)) r)
    by (intros w0; reflexivity).
  assert (Hout : outcome (server w TToken (netlog w) r)
                 = Rejected (AxiosError (Some resp))) by reflexivity.
  assert (Hstatus : err_status resp = 401) by reflexivity.
  destruct (login_401_shows_error_and_stores_nothing a r s w Hlogin resp
              Hout Hstatus)
    as (_ & Herr & _ & _ & _ & Hstore & _).
  repeat split; assumption.
Defined.

(** A [detail] that is the empty string counts as none: the form shows the
    fallback text. *)
Lemma login_401_empty_detail_shows_fallback :
  let a := authApi_with (Some (ClientInstance api)) in
  let w := fresh_world (failing_server 401 (Some "")) in
  let s := {| LoginPage.formData := LoginRequest.mk "alice" "wrong";
              LoginPage.error := "";
              LoginPage.loading := false |} in
  LoginPage.error (fst (snd (LoginPage.handleSubmit a (s, w)))) = "登录失败".
Proof. reflexivity. Qed.

(** With [authApi] as [services/auth.ts] defines it, the login call throws
    before anything is sent; the handler catches the [ReferenceError] and
    shows the fallback text. *)
Lemma login_as_linked (s : LoginPage.State) (w : World) :
  LoginPage.handleSubmit authApi (s, w)
  = (Returned tt,
     ({| LoginPage.formData := LoginPage.formData s;
         LoginPage.error := "登录失败";
         LoginPage.loading := false |}, w)).
Proof. reflexivity. Qed.

(** ** The registration form *)

(** A non-empty error is shown in the banner. *)
Lemma register_banner_shows (s : RegisterPage.State) :
  RegisterPage.error s <> "" ->
  react_render (RegisterPage.error_banner s)
  = [Node "div"
       "mb-4 p-3 bg-red-50 border border-red-200 rounded-md text-red-700"
       [Text (RegisterPage.error s)]].
Proof.
  intros Hne. unfold RegisterPage.error_banner, js_and. simpl.
  rewrite bool_decide_true by exact Hne. simpl.
  destruct (decide (RegisterPage.error s = "")); [contradiction | reflexivity].
Qed.

(** C9. When the password differs from the confirmation, or has fewer than
    8 characters, the handler returns with the world untouched, whatever
    object stands for [authApi]: no request is recorded, [register] is not
    called, the router history does not change.  The only change is the
    error of the form, which is the mismatch message in the first case and
    the length message otherwise; the banner displays it. *)
Theorem register_invalid_password_stays_local
  (a : AuthApi.t) (s : RegisterPage.State) (w : World) :
  RegisterRequest.password (RegisterPage.formData s)
    <> RegisterPage.confirmPassword s
  \/ (String.length (RegisterRequest.password (RegisterPage.formData s)) < 8)%nat ->
  let msg :=
    if decide (RegisterRequest.password (RegisterPage.formData s)
               = RegisterPage.confirmPassword s)
    then "密码长度至少为8位"
    else "两次输入的密码不一致" in
  let s' := {| RegisterPage.formData := RegisterPage.formData s;
               RegisterPage.confirmPassword := RegisterPage.confirmPassword s;
               RegisterPage.error := msg;
               RegisterPage.loading := RegisterPage.loading s |} in
  RegisterPage.handleSubmit a (s, w) = (Returned tt, (s', w))
  /\ msg <> ""
  /\ react_render (RegisterPage.error_banner s')
     = [Node "div"
          "mb-4 p-3 bg-red-50 border border-red-200 rounded-md text-red-700"
          [Text msg]].
Proof.
  intros Hbad msg s'.
  assert (Hne : msg <> "") by (unfold msg; destruct (decide _); discriminate).
  split; [|split; [exact Hne | apply (register_banner_shows s'); exact Hne]].
  unfold RegisterPage.handleSubmit, bind, gets. simpl.
  unfold s', msg.
  destruct (decide (RegisterRequest.password (RegisterPage.formData s)
                    ≠ RegisterPage.confirmPassword s)) as [Hdiff|Hsame];
    destruct (decide (RegisterRequest.password (RegisterPage.formData s)
                      = RegisterPage.confirmPassword s)) as [Heq|Hneq];
    try contradiction; [reflexivity|].
  destruct Hbad as [Hdiff|Hshort]; [contradiction|].
  apply Nat.ltb_lt in Hshort. rewrite Hshort. reflexivity.
Qed.

Lemma register_short_password_stays_local :
  let s := {| RegisterPage.formData :=
                RegisterRequest.mk "alice" "alice@example.org" "short"
                  (Some "Alice");
              RegisterPage.confirmPassword := "short";
              RegisterPage.error := "";
              RegisterPage.loading := false |} in
  let w := fresh_world ok_server in
  (String.length (RegisterRequest.password (RegisterPage.formData s)) < 8)%nat
  /\ RegisterPage.handleSubmit (authApi_with (Some (ClientInstance api)))
       (s, w)
     = (Returned tt,
        ({| RegisterPage.formData :=
              RegisterRequest.mk "alice" "alice@example.org" "short"
                (Some "Alice");
            RegisterPage.confirmPassword := "short";
            RegisterPage.error := "密码长度至少为8位";
            RegisterPage.loading := false |}, w)).
Proof.
  intros s w.
  assert (Hshort : (String.length
                      (RegisterRequest.password (RegisterPage.formData s))
                    < 8)%nat) by (simpl; lia).
  split; [exact Hshort|].
  exact (proj1 (register_invalid_password_stays_local
                  (authApi_with (Some (ClientInstance api))) s w
                  (or_intror Hshort))).
Defined.

(** A valid submission does reach [register]: with a client bound to [api]
    the request is sent and the router goes to the login page. *)
Lemma register_valid_submission_is_sent :
  let fd := RegisterRequest.mk "alice" "alice@example.org" "long enough"
              (Some "Alice") in
  let s := {| RegisterPage.formData := fd;
              RegisterPage.confirmPassword := "long enough";
              RegisterPage.error := "";
              RegisterPage.loading := false |} in
  let w' := snd (snd (RegisterPage.handleSubmit
                        (authApi_with (Some (ClientInstance api)))
                        (s, fresh_world ok_server))) in
  netlog w' = [via_api POST "/auth/register" None (Some (RegisterBody fd)) ∅]
  /\ history w'
     = [{| nav_to := "/login"; nav_message := Some "注册成功，请登录" |}].
Proof. split; reflexivity. Qed.

(** ** The intervention detail view *)

(** [Promise.all] is fulfilled exactly when both promises are, and a
    rejection of it is the rejection of one of the two. *)
Lemma Promise_all_spec {A B} (p : Promise A) (q : Promise B) :
  match outcome (Promise_all p q) with
  | Fulfilled (a, b) => outcome p = Fulfilled a /\ outcome q = Fulfilled b
  | Rejected e => outcome p = Rejected e \/ outcome q = Rejected e
  end.
Proof.
  unfold Promise_all.
  destruct (outcome p), (outcome q); simpl; auto.
  destruct (settled_at p <=? settled_at q)%nat; simpl; auto.
Qed.

(** [loadData] in closed form: both requests go out, and the state changes
    according to how [Promise.all] of the two promises settles. *)
Lemma detail_load_joins
  (interventionId : number) (s : InterventionDetail.State) (w : World) :
  let r1 := via_api GET ("/interventions/" +:+ number_to_string interventionId)
              None None ∅ in
  let r2 := via_api GET
              ("/evidence/intervention/" +:+ number_to_string interventionId)
              None None ∅ in
  let p1 := server w TIntervention (netlog w) r1 in
  let p2 := server w (TArray TEvidence) (netlog w ++ [r1]) r2 in
  let w2 := log_request r2 (log_request r1 w) in
  InterventionDetail.loadData interventionId (s, w)
  = match outcome (Promise_all p1 p2) with
    | Fulfilled (a, b) =>
        (Returned tt,
         ({| InterventionDetail.intervention := Some (AxiosResponse.data a);
             InterventionDetail.evidence := AxiosResponse.data b;
             InterventionDetail.loading := false |}, w2))
    | Rejected e =>
        (Returned tt,
         ({| InterventionDetail.intervention :=
               InterventionDetail.intervention s;
             InterventionDetail.evidence := InterventionDetail.evidence s;
             InterventionDetail.loading := false |},
          snd (console_error "Failed to load intervention:" e w2)))
    end.
Proof.
  intros r1 r2 p1 p2 w2.
  unfold InterventionDetail.loadData, bind, try_finally, try_catch, await.
  unfold p1, p2, r1, r2, w2, via_api. simpl.
  match goal with
  | |- context [match ?o with Fulfilled _ => _ | Rejected _ => _ end] =>
      destruct o as [[a b]|e]
  end; reflexivity.
Qed.

(** On mount, with a server that answers both requests, the view has the
    two cards; with a server that refuses, it has the "not found" text and
    the console has one entry. *)
Lemma detail_mount_examples :
  let ok := InterventionDetail.loadData 1
              (InterventionDetail.initial, fresh_world ok_server) in
  let ko := InterventionDetail.loadData 1
              (InterventionDetail.initial,
               fresh_world (failing_server 500 None)) in
  InterventionDetail.render (fst (snd ok))
  = Element "div" "p-6 max-w-4xl mx-auto"
      [ InterventionDetail.back_button;
        InterventionDetail.intervention_section blank_intervention;
        InterventionDetail.evidence_section [] ]
  /\ console (snd (snd ok)) = []
  /\ InterventionDetail.render (fst (snd ko))
     = InterventionDetail.not_found_view
  /\ length (console (snd (snd ko))) = 1%nat
  /\ length (netlog (snd (snd ko))) = 2%nat.
Proof. repeat split. Qed.

(** ** Evidence and its confidence interval *)

(** What a call that issues one request is fulfilled with is what the
    transport fulfils that request with. *)
Lemma issues_fulfilled {t : ty}
  (m : M World (Promise (AxiosResponse.t (interp t)))) (r : Request)
  (w : World) (resp : AxiosResponse.t (interp t)) :
  issues m r ->
  fulfilled_with m w resp ->
  outcome (server w t (netlog w) r) = Fulfilled resp.
Proof.
  intros Hm (p & w' & Hrun & Hout). rewrite (Hm w) in Hrun.
  injection Hrun as <- _. exact Hout.
Qed.

(** C8 as stated fails: the record the access layer hands over for
    [evidenceApi.get(7)] has the effect size 5 with the interval (1, 2). *)
Lemma evidence_interval_not_enforced :
  let resp := AxiosResponse.mk skewed_evidence 200 in
  fulfilled_with (evidenceApi.get 7) (fresh_world skewed_server) resp
  /\ Evidence.effect_size (AxiosResponse.data resp)
     = Some (EffectSize.mk "hazard_ratio" 5 (1, 2))
  /\ ~ ci_invariant (AxiosResponse.data resp).
Proof.
  split; [|split; [reflexivity|]].
  - eexists _, _. split; reflexivity.
  - unfold ci_invariant. simpl. lia.
Qed.

(** C8, as amended.  The client checks nothing: [evidenceApi] hands over the
    evidence exactly as the server sent it.  So, when every evidence payload
    of the server satisfies [low <= value <= high], every evidence obtained
    from [evidenceApi] does, and the detail view keeps the property of its
    state across [loadData]. *)
Theorem evidence_interval_holds_when_server_data_does (w : World) :
  server_respects_ci (server w) ->
  (forall id resp,
      fulfilled_with (evidenceApi.get id) w resp ->
      ci_invariant (AxiosResponse.data resp))
  /\ (forall d resp,
      fulfilled_with (evidenceApi.create d) w resp ->
      ci_invariant (AxiosResponse.data resp))
  /\ (forall id p resp,
      fulfilled_with (evidenceApi.list id p) w resp ->
      Forall ci_invariant (AxiosResponse.data resp))
  /\ (forall q resp,
      fulfilled_with (evidenceApi.getByQuality q) w resp ->
      Forall ci_invariant (AxiosResponse.data resp))
  /\ (forall resp,
      fulfilled_with evidenceApi.getMetaAnalyses w resp ->
      Forall ci_invariant (AxiosResponse.data resp))
  /\ (forall resp,
      fulfilled_with evidenceApi.getRandomizedTrials w resp ->
      Forall ci_invariant (AxiosResponse.data resp))
  /\ (forall id s,
      Forall ci_invariant (InterventionDetail.evidence s) ->
      Forall ci_invariant
        (InterventionDetail.evidence
           (fst (snd (InterventionDetail.loadData id (s, w)))))).
Proof.
  intros [Hone Hmany].
  destruct evidenceApi_requests as (Hlist & Hget & Hcreate & Hq & Hmeta & Hrct).
  repeat split.
  - intros id resp H. eapply Hone, issues_fulfilled; [apply Hget | exact H].
  - intros d resp H. eapply Hone, issues_fulfilled; [apply Hcreate | exact H].
  - intros id p resp H.
    eapply Hmany, issues_fulfilled; [apply Hlist | exact H].
  - intros q resp H. eapply Hmany, issues_fulfilled; [apply Hq | exact H].
  - intros resp H. eapply Hmany, issues_fulfilled; [apply Hmeta | exact H].
  - intros resp H. eapply Hmany, issues_fulfilled; [apply Hrct | exact H].
  - intros id s Hs.
    pose proof (detail_load_joins id s w) as Hrun.
    cbv zeta in Hrun. rewrite Hrun. clear Hrun.
    pose proof (Promise_all_spec
      (server w TIntervention (netlog w)
         (via_api GET ("/interventions/" +:+ number_to_string id) None None ∅))
      (server w (TArray TEvidence)
         (netlog w
          ++ [via_api GET ("/interventions/" +:+ number_to_string id)
                None None ∅])
         (via_api GET ("/evidence/intervention/" +:+ number_to_string id)
            None None ∅))) as Hall.
    destruct (outcome (Promise_all _ _)) as [[a b]|e]; simpl.
    + destruct Hall as [_ Hb]. eapply Hmany. exact Hb.
    + exact Hs.
Qed.

Lemma sound_server_respects_ci : server_respects_ci sound_server.
Proof.
  split; intros log r resp H; injection H as <-; simpl.
  - unfold ci_invariant. simpl. lia.
  - constructor; [|constructor]. unfold ci_invariant. simpl. lia.
Defined.

Lemma evidence_interval_with_sound_server :
  let w := fresh_world sound_server in
  let resp := AxiosResponse.mk sound_evidence 200 in
  server_respects_ci (server w)
  /\ fulfilled_with (evidenceApi.get 7) w resp
  /\ Evidence.effect_size (AxiosResponse.data resp)
     = Some (EffectSize.mk "hazard_ratio" 85 (78, 92))
  /\ (78 <= 85 /\ 85 <= 92)
  /\ ci_invariant (AxiosResponse.data resp)
  /\ Forall ci_invariant
       (InterventionDetail.evidence
          (fst (snd (InterventionDetail.loadData 1
                       (InterventionDetail.initial, w)))))
  /\ InterventionDetail.evidence
       (fst (snd (InterventionDetail.loadData 1
                    (InterventionDetail.initial, w))))
     = [sound_evidence].
Proof.
  intros w resp.
  pose proof (evidence_interval_holds_when_server_data_does w
                sound_server_respects_ci) as (Hget & _ & _ & _ & _ & _ & Hload).
  assert (Hful : fulfilled_with (evidenceApi.get 7) w resp)
    by (eexists _, _; split; reflexivity).
  split; [exact sound_server_respects_ci|].
  split; [exact Hful|].
  split; [reflexivity|].
  split; [lia|].
  split; [exact (Hget 7 resp Hful)|].
  split; [|reflexivity].
  apply (Hload 1 InterventionDetail.initial). constructor.
Defined.

(** ** Optional evidence fields in the detail view *)

(** A string field that is the empty string is displayed as a missing one
    is: not at all. *)
Lemma evidence_item_empty_strings_omitted (e : Evidence) :
  let with_strings (st ci : option string) : Evidence :=
    Evidence.mk (F := Required) (Evidence.id e) (Evidence.intervention_id e)
      st (Evidence.pubmed_id e) ci (Evidence.sample_size e)
      (Evidence.duration_days e) (Evidence.effect_size e)
      (Evidence.outcomes e) (Evidence.quality_score e)
      (Evidence.created_at e) in
  react_render (InterventionDetail.evidence_item
                  (with_strings (Some "") (Some "")))
  = react_render (InterventionDetail.evidence_item (with_strings None None)).
Proof. reflexivity. Qed.

(** A number field that is not zero is displayed with its label. *)
Lemma evidence_item_sample_size_shown (n : number) :
  n <> 0 ->
  react_render (InterventionDetail.evidence_item
    (Evidence.mk (F := Required) 1 1 None None None (Some n) None None None
       None ""))
  = [Node "div" "border-l-4 border-blue-500 pl-4"
       [Node "div" "flex gap-4 text-sm text-gray-500 mt-2"
          [Node "span" "" [Text "样本: "; Text (number_to_string n)]]]].
Proof.
  intros Hn. unfold InterventionDetail.evidence_item, js_and. simpl.
  rewrite bool_decide_true by exact Hn. reflexivity.
Qed.

(** C10, at an evidence record whose [sample_size] is 0.  The labelled
    field is left out, but the value of [e.sample_size && ...] is the number
    0, which React displays: the row holds the text "0", where the same
    record without a [sample_size] gives an empty row.  The two displays
    differ. *)
Theorem evidence_item_zero_is_displayed :
  let zero : Evidence :=
    Evidence.mk (F := Required) 1 1 None None None (Some 0) None None None
      None "" in
  let absent : Evidence :=
    Evidence.mk (F := Required) 1 1 None None None None None None None
      None "" in
  react_render (InterventionDetail.evidence_item zero)
  = [Node "div" "border-l-4 border-blue-500 pl-4"
       [Node "div" "flex gap-4 text-sm text-gray-500 mt-2" [Text "0"]]]
  /\ react_render (InterventionDetail.evidence_item absent)
     = [Node "div" "border-l-4 border-blue-500 pl-4"
          [Node "div" "flex gap-4 text-sm text-gray-500 mt-2" []]]
  /\ react_render (InterventionDetail.evidence_item zero)
     <> react_render (InterventionDetail.evidence_item absent).
Proof.
  repeat split. discriminate.
Qed.

(** * Further properties of the access layer *)

(** ** Numerals in URLs *)

Lemma parse_number_to_string n : parse_number (number_to_string n) = Some n.
Proof.
  unfold parse_number, number_to_string.
  rewrite NilZero.isi.
  - simpl. f_equal. apply DecimalZ.of_to.
  - destruct n; simpl; try discriminate.
    intros H. injection H as H. exact (DecimalPos.Unsigned.to_uint_nonnil _ H).
  - destruct n; simpl; try discriminate.
    intros H. injection H as H. exact (DecimalPos.Unsigned.to_uint_nonnil _ H).
Qed.

Lemma number_to_string_inj n m :
  number_to_string n = number_to_string m -> n = m.
Proof.
  intros H. apply (f_equal parse_number) in H.
  rewrite !parse_number_to_string in H. congruence.
Qed.

Lemma append_inj_r (a b c : string) : a +:+ b = a +:+ c -> b = c.
Proof.
  induction a as [|x a IH]; simpl; intros H; [assumption|].
  injection H as H. auto.
Qed.

(** A URL without [#] and [?] is all path. *)
Lemma url_without_query u :
  lacks "#" u = true -> lacks "?" u = true ->
  url_path u = u /\ url_query u = [].
Proof.
  intros H1 H2. unfold url_path, url_query.
  rewrite (cut_at_lacks _ _ H1). simpl fst.
  rewrite (cut_at_lacks _ _ H2). split; reflexivity.
Qed.

Lemma numbered_url prefix n :
  lacks "#" prefix = true -> lacks "?" prefix = true ->
  let u := prefix +:+ number_to_string n in
  url_path u = u /\ url_query u = [].
Proof.
  intros H1 H2 u. apply url_without_query; unfold u;
    (apply lacks_app; [assumption|]);
    apply numeral_lacks; try reflexivity; apply number_to_string_numeral.
Qed.

(** X1. For identifiers in the safe integer range, the three [get]
    functions put the identifier into the path as its decimal numeral: the
    URL has neither a query nor a fragment, the identifier can be read back
    from it, and two identifiers never give the same URL. *)
Theorem get_by_id_urls (id id' : number) :
  safe_integer id -> safe_integer id' ->
  let prefixes :=
    ["/interventions/"; "/evidence/"; "/recommendations/"] in
  issues (interventionsApi.get id)
    (via_api GET ("/interventions/" +:+ number_to_string id) None None ∅)
  /\ issues (evidenceApi.get id)
       (via_api GET ("/evidence/" +:+ number_to_string id) None None ∅)
  /\ issues (recommendationsApi.get id)
       (via_api GET ("/recommendations/" +:+ number_to_string id) None None ∅)
  /\ Forall (fun prefix =>
       let r := via_api GET (prefix +:+ number_to_string id) None None ∅ in
       url_path (url r) = prefix +:+ number_to_string id
       /\ query_received r = []
       /\ parse_number (number_to_string id) = Some id
       /\ (url r = prefix +:+ number_to_string id' -> id = id')) prefixes.
Proof.
  intros _ _ prefixes.
  split; [intros w; reflexivity|].
  split; [intros w; reflexivity|].
  split; [intros w; reflexivity|].
  assert (Hone : forall prefix,
             lacks "#" prefix = true -> lacks "?" prefix = true ->
             let r := via_api GET (prefix +:+ number_to_string id)
                        None None ∅ in
             url_path (url r) = prefix +:+ number_to_string id
             /\ query_received r = []
             /\ parse_number (number_to_string id) = Some id
             /\ (url r = prefix +:+ number_to_string id' -> id = id')).
  { intros prefix H1 H2 r.
    destruct (numbered_url prefix id H1 H2) as [Hpath Hquery].
    split; [exact Hpath|].
    split; [unfold query_received; simpl url; simpl params;
            rewrite Hquery; reflexivity|].
    split; [apply parse_number_to_string|].
    simpl url. intros H. apply append_inj_r in H.
    apply number_to_string_inj. exact H. }
  unfold prefixes.
  repeat (constructor; [apply Hone; reflexivity|]). constructor.
Qed.

Lemma get_by_id_urls_example :
  safe_integer 7
  /\ safe_integer 8
  /\ issues (evidenceApi.get 7) (via_api GET "/evidence/7" None None ∅)
  /\ url_path "/evidence/7" = "/evidence/7"
  /\ parse_number "7" = Some 7
  /\ "/evidence/7" <> "/evidence/8".
Proof.
  assert (H7 : safe_integer 7) by (unfold safe_integer; lia).
  assert (H8 : safe_integer 8) by (unfold safe_integer; lia).
  destruct (get_by_id_urls 7 8 H7 H8) as (_ & Hget & _ & Hall).
  apply Forall_cons in Hall as [_ Hall].
  apply Forall_cons in Hall as [(Hpath & _ & Hparse & Hinj) _].
  split; [exact H7|]. split; [exact H8|]. split; [exact Hget|].
  split; [exact Hpath|]. split; [exact Hparse|].
  intros Heq. specialize (Hinj Heq). discriminate Hinj.
Defined.

(** X2. The paginated call [evidenceApi.list], for an intervention id in
    the safe integer range, hands its [params] object to axios as it is.
    The URL string is all path and carries no query of its own, and the
    query axios builds has [skip] exactly when the caller gave it, [limit]
    exactly when the caller gave it, each with the given number, no key
    twice and no other key; without the argument no query parameter is
    received at all. *)
Theorem page_params_forwarded (id : number) (p : option PageParams.t) :
  safe_integer id ->
  let r := via_api GET ("/evidence/intervention/" +:+ number_to_string id)
             (OfPage <$> p) None ∅ in
  let given (key : string) :=
    match p with
    | Some q =>
        if decide (key = "skip") then QNum <$> PageParams.skip q
        else if decide (key = "limit") then QNum <$> PageParams.limit q
        else None
    | None => None
    end in
  issues (evidenceApi.list id p) r
  /\ url_path (url r) = "/evidence/intervention/" +:+ number_to_string id
  /\ url_query (url r) = []
  /\ (forall key v,
        (key, v) ∈ serialize_params (params r) <-> given key = Some v)
  /\ NoDup (map fst (serialize_params (params r)))
  /\ query_received
       (via_api GET ("/evidence/intervention/" +:+ number_to_string id)
          (OfPage <$> None) None ∅) = [].
Proof.
  intros _ r given.
  destruct (numbered_url "/evidence/intervention/" id eq_refl eq_refl)
    as [Hpath Hquery].
  split; [intros w; reflexivity|].
  split; [exact Hpath|]. split; [exact Hquery|].
  split; [|split].
  - intros key v. unfold given. simpl params.
    destruct p as [[[sk|] [li|]]|]; simpl;
      rewrite ?elem_of_cons, ?elem_of_nil;
      repeat (destruct (decide _) as [->|]); simpl;
      split; intros H;
      repeat match goal with
             | H : _ \/ _ |- _ => destruct H
             | H : False |- _ => destruct H
             | H : (_, _) = (_, _) |- _ => injection H as ? ?; subst
             | H : Some _ = Some _ |- _ => injection H as ?; subst
             end;
      try congruence; try discriminate; auto.
  - simpl params. destruct p as [[[sk|] [li|]]|]; simpl;
      apply (bool_decide_unpack _); reflexivity.
  - unfold query_received. simpl url. simpl params. rewrite Hquery.
    reflexivity.
Qed.

Lemma page_params_forwarded_example :
  safe_integer 3
  /\ issues (evidenceApi.list 3 (Some (PageParams.mk (Some 20) None)))
       (via_api GET "/evidence/intervention/3"
          (Some (OfPage (PageParams.mk (Some 20) None))) None ∅)
  /\ ("skip", QNum 20)
       ∈ serialize_params (Some (OfPage (PageParams.mk (Some 20) None)))
  /\ ~ (exists v, ("limit", v)
          ∈ serialize_params (Some (OfPage (PageParams.mk (Some 20) None)))).
Proof.
  assert (H3 : safe_integer 3) by (unfold safe_integer; lia).
  destruct (page_params_forwarded 3 (Some (PageParams.mk (Some 20) None)) H3)
    as (Hissues & _ & _ & Hiff & _).
  split; [exact H3|]. split; [exact Hissues|]. split.
  - apply (Hiff "skip" (QNum 20)). reflexivity.
  - intros [v Hv]. apply (Hiff "limit" v) in Hv. discriminate Hv.
Defined.

(** X3. For an integer [q] in the safe integer range,
    [evidenceApi.getByQuality(q)] is one GET request whose path is
    [/evidence/by-quality] and whose only query parameter is [min_quality],
    with the numeral of [q], from which the server reads [q] back. *)
Theorem getByQuality_query (q : number) :
  safe_integer q ->
  let r := via_api GET
             ("/evidence/by-quality?min_quality=" +:+ number_to_string q)
             None None ∅ in
  issues (evidenceApi.getByQuality q) r
  /\ url_path (url r) = "/evidence/by-quality"
  /\ query_received r = [("min_quality", number_to_string q)]
  /\ parse_number (number_to_string q) = Some q.
Proof.
  intros _ r.
  destruct (url_with_numeral "/evidence/by-quality" "min_quality" q)
    as [Hpath Hquery]; try reflexivity.
  split; [intros w; reflexivity|]. split; [exact Hpath|].
  split; [|apply parse_number_to_string].
  unfold query_received. simpl url. simpl params.
  change ("/evidence/by-quality?min_quality=" +:+ number_to_string q)
    with ("/evidence/by-quality"
          +:+ String "?" ("min_quality" +:+ String "=" (number_to_string q))).
  rewrite Hquery. reflexivity.
Qed.

Lemma getByQuality_query_example :
  safe_integer 8
  /\ issues (evidenceApi.getByQuality 8)
       (via_api GET "/evidence/by-quality?min_quality=8" None None ∅)
  /\ query_received
       (via_api GET "/evidence/by-quality?min_quality=8" None None ∅)
     = [("min_quality", "8")].
Proof.
  assert (H8 : safe_integer 8) by (unfold safe_integer; lia).
  destruct (getByQuality_query 8 H8) as (Hissues & _ & Hquery & _).
  split; [exact H8|]. split; [exact Hissues | exact Hquery].
Defined.

Lemma all_chars_lacks (P : ascii -> bool) (c : ascii) (s : string) :
  P c = false -> all_chars P s = true -> lacks c s = true.
Proof.
  intros Hc. induction s as [|x rest IH]; [reflexivity|].
  simpl. intros H. apply andb_prop in H as [Hx Hrest].
  rewrite (IH Hrest), andb_true_r.
  destruct (Ascii.eqb_spec x c) as [->|]; [congruence | reflexivity].
Qed.

(** X4. [recommendationsApi.getUser] writes the user id into the URL as it
    is.  For an id made of letters, digits, [-] and [_] the path is
    [/recommendations/user/<id>] and the URL carries no query.  For an id
    [a?b], with [a] of that kind and [b] made of those characters, [=] and
    [&], the path ends at [a] and [b] is received as query parameters. *)
Theorem getUser_path (userId : string) (p : option PageParams.t) :
  let r := via_api GET ("/recommendations/user/" +:+ userId)
             (OfPage <$> p) None ∅ in
  issues (recommendationsApi.getUser userId p) r
  /\ (all_chars plain_char userId = true ->
      url_path (url r) = "/recommendations/user/" +:+ userId
      /\ url_query (url r) = [])
  /\ (forall a b,
        userId = a +:+ String "?" b ->
        all_chars plain_char a = true -> all_chars query_char b = true ->
        url_path (url r) = "/recommendations/user/" +:+ a
        /\ url_query (url r) = parse_query b).
Proof.
  intros r.
  split; [intros w; reflexivity|]. split.
  - intros Hplain. apply url_without_query; simpl url;
      (apply lacks_app; [reflexivity|]);
      apply (all_chars_lacks plain_char); (reflexivity || assumption).
  - intros a b -> Ha Hb. simpl url. unfold url_path, url_query.
    assert (Ha1 : lacks "#" a = true)
      by (apply (all_chars_lacks plain_char); (reflexivity || assumption)).
    assert (Ha2 : lacks "?" a = true)
      by (apply (all_chars_lacks plain_char); (reflexivity || assumption)).
    assert (Hb1 : lacks "#" b = true)
      by (apply (all_chars_lacks query_char); (reflexivity || assumption)).
    assert (Hfrag : lacks "#" (a +:+ String "?" b) = true).
    { apply lacks_app; [assumption|]. simpl. exact Hb1. }
    rewrite (cut_at_lacks "#")
      by (apply lacks_app; [reflexivity | assumption]).
    cbn [fst].
    change ("/recommendations/user/" +:+ a +:+ String "?" b)
      with (("/recommendations/user/" +:+ a) +:+ String "?" b).
    rewrite cut_at_app by (apply lacks_app; [reflexivity | assumption]).
    split; reflexivity.
Qed.

Lemma getUser_path_examples :
  all_chars plain_char "u-17" = true
  /\ url_path ("/recommendations/user/" +:+ "u-17")
     = "/recommendations/user/u-17"
  /\ all_chars query_char "limit=1" = true
  /\ url_path ("/recommendations/user/" +:+ "u-17?limit=1")
     = "/recommendations/user/u-17"
  /\ url_query ("/recommendations/user/" +:+ "u-17?limit=1")
     = [("limit", "1")].
Proof.
  destruct (getUser_path "u-17" None) as (_ & Hplain & _).
  destruct (Hplain eq_refl) as [Hp _].
  destruct (getUser_path "u-17?limit=1" None) as (_ & _ & Hsplit).
  destruct (Hsplit "u-17" "limit=1" eq_refl eq_refl eq_refl) as [Hp' Hq'].
  repeat split; try reflexivity; assumption.
Defined.

(** * Further properties of the view components *)

(** ** The intervention list *)

(** X5. The list page asks for [/interventions] with the one query
    parameter [category], set to the selected filter, and with no query
    parameter at all when the filter is "all"; it never sends [skip] or
    [limit].  The request goes out whatever the state of the page. *)
Theorem loadInterventions_query (s : InterventionList.State) (w : World) :
  exists r,
    netlog (snd (snd (InterventionList.loadInterventions (s, w))))
    = netlog w ++ [r]
    /\ method r = GET
    /\ url r = "/interventions"
    /\ query_received r
       = if decide (InterventionList.filter s = "all") then []
         else [("category", InterventionList.filter s)].
Proof.
  pose proof (loadInterventions_request s w) as H. cbv zeta in H.
  eexists. split; [exact H|].
  destruct (decide (InterventionList.filter s = "all")); repeat split.
Qed.

(** X6. [loadInterventions] never throws and always clears the loading
    flag.  When the request is fulfilled the list becomes the data of the
    response; when it is rejected the list stays what it was and the reason
    goes to the console.  The filter is never changed, and nothing is
    written to [localStorage] or to the router history. *)
Theorem loadInterventions_outcome (s : InterventionList.State) (w : World) :
  let p := if decide (InterventionList.filter s = "all") then None
           else Some (ListParams.mk None None
                        (Some (InterventionList.filter s))) in
  let r := via_api GET "/interventions" (OfList <$> p) None ∅ in
  InterventionList.loadInterventions (s, w)
  = (Returned tt,
     match outcome (server w (TArray TIntervention) (netlog w) r) with
     | Fulfilled resp =>
         ({| InterventionList.interventions := AxiosResponse.data resp;
             InterventionList.loading := false;
             InterventionList.filter := InterventionList.filter s |},
          log_request r w)
     | Rejected e =>
         ({| InterventionList.interventions :=
               InterventionList.interventions s;
             InterventionList.loading := false;
             InterventionList.filter := InterventionList.filter s |},
          snd (console_error "Failed to load interventions:" e
                 (log_request r w)))
     end).
Proof.
  intros p r.
  unfold InterventionList.loadInterventions, bind, try_finally, try_catch,
    gets, await.
  unfold r, p, via_api. simpl.
  destruct (decide (InterventionList.filter s ≠ "all")) as [Hne|Heq];
    destruct (decide (InterventionList.filter s = "all")) as [He|Hn];
    try contradiction; simpl;
    match goal with
    | |- context [match ?o with Fulfilled _ => _ | Rejected _ => _ end] =>
        destruct o
    end; reflexivity.
Qed.

(** X7. [evidenceLevelColor] always yields a class.  The levels 1 to 4 have
    four different classes, every other level gets the class of level 4,
    and the levels with a class of their own are those with a label in
    [evidenceLevelLabels]. *)
Theorem evidenceLevelColor_levels (level level' : number) :
  (exists c, InterventionList.evidenceLevelColor level = Some c /\ c <> "")
  /\ (1 <= level <= 4 -> 1 <= level' <= 4 ->
      InterventionList.evidenceLevelColor level
      = InterventionList.evidenceLevelColor level' -> level = level')
  /\ (~ 1 <= level <= 4 ->
      InterventionList.evidenceLevelColor level
      = InterventionList.evidenceLevelColor 4)
  /\ dom InterventionList.colors = dom evidenceLevelLabels.
Proof.
  assert (Hout : forall l : number, ~ 1 <= l <= 4 ->
                           InterventionList.colors !! l = None).
  { intros l Hl. unfold InterventionList.colors.
    rewrite !lookup_insert_ne by lia. apply lookup_singleton_ne. lia. }
  assert (Hin : forall l, 1 <= l <= 4 -> l = 1 \/ l = 2 \/ l = 3 \/ l = 4)
    by (intros; lia).
  split; [|split; [|split]].
  - destruct (decide (1 <= level <= 4)) as [H|H].
    + destruct (Hin level H) as [-> | [-> | [-> | ->]]];
        eexists; (split; [reflexivity | discriminate]).
    + unfold InterventionList.evidenceLevelColor. rewrite (Hout level H).
      eexists; (split; [reflexivity | discriminate]).
  - intros H H' Heq.
    destruct (Hin level H) as [-> | [-> | [-> | ->]]];
      destruct (Hin level' H') as [-> | [-> | [-> | ->]]];
      try reflexivity; vm_compute in Heq; discriminate.
  - intros H. unfold InterventionList.evidenceLevelColor at 1.
    rewrite (Hout level H). reflexivity.
  - unfold InterventionList.colors, evidenceLevelLabels.
    rewrite !dom_insert_L, !dom_singleton_L. reflexivity.
Qed.

Lemma evidenceLevelColor_examples :
  (1 <= 2 <= 4 /\ 1 <= 3 <= 4 /\ ~ 1 <= 9 <= 4)
  /\ InterventionList.evidenceLevelColor 2
     <> InterventionList.evidenceLevelColor 3
  /\ InterventionList.evidenceLevelColor 9
     = Some "bg-gray-100 text-gray-800".
Proof.
  assert (H2 : 1 <= 2 <= 4) by lia.
  assert (H3 : 1 <= 3 <= 4) by lia.
  assert (H9 : ~ 1 <= 9 <= 4) by lia.
  destruct (evidenceLevelColor_levels 2 3) as (_ & Hinj & _).
  destruct (evidenceLevelColor_levels 9 9) as (_ & _ & Hgrey & _).
  split; [auto|]. split.
  - intros Heq. specialize (Hinj H2 H3 Heq). discriminate.
  - rewrite (Hgrey H9). reflexivity.
Defined.

(** ** The dashboard *)

(** X8. [loadTopInterventions] always asks for [limit=10], never throws and
    always clears the loading flag.  When the request is fulfilled the list
    becomes the data of the response; when it is rejected the list shown
    before is kept and the reason goes to the console. *)
Theorem loadTopInterventions_outcome (s : Dashboard.State) (w : World) :
  let r := via_api GET "/recommendations/top-interventions?limit=10"
             None None ∅ in
  query_received r = [("limit", "10")]
  /\ Dashboard.loadTopInterventions (s, w)
     = (Returned tt,
        match outcome (server w (TArray TInterventionWithScores)
                         (netlog w) r) with
        | Fulfilled resp =>
            ({| Dashboard.topInterventions := AxiosResponse.data resp;
                Dashboard.loading := false |},
             log_request r w)
        | Rejected e =>
            ({| Dashboard.topInterventions := Dashboard.topInterventions s;
                Dashboard.loading := false |},
             snd (console_error "Failed to load top interventions:" e
                    (log_request r w)))
        end).
Proof.
  intros r. split; [reflexivity|].
  unfold Dashboard.loadTopInterventions, bind, try_finally, try_catch, await.
  unfold r, via_api. simpl.
  change ("/recommendations/top-interventions?limit=" +:+ number_to_string 10)
    with "/recommendations/top-interventions?limit=10".
  match goal with
  | |- context [match ?o with Fulfilled _ => _ | Rejected _ => _ end] =>
      destruct o
  end; reflexivity.
Qed.

(** ** The login form, continued *)

(** X9. After a fulfilled login, reading [access_token] and [refresh_token]
    back from [localStorage] gives the two tokens of the response, every
    other key holds what it held before, and the router has gone to [/]
    once.  The statement is for any [authApi] whose [login] issues one
    request. *)
Theorem login_stores_the_token_pair
  (a : AuthApi.t) (r : Request) (s : LoginPage.State) (w : World)
  (resp : AxiosResponse.t Token.t) :
  issues (t := TToken) (AuthApi.login a (LoginPage.formData s)) r ->
  outcome (server w TToken (netlog w) r) = Fulfilled resp ->
  let w' := snd (snd (LoginPage.handleSubmit a (s, w))) in
  localStorage w' !! "access_token"
  = Some (Token.access_token (AxiosResponse.data resp))
  /\ localStorage w' !! "refresh_token"
     = Some (Token.refresh_token (AxiosResponse.data resp))
  /\ (forall key, key <> "access_token" -> key <> "refresh_token" ->
                  localStorage w' !! key = localStorage w !! key)
  /\ history w' = history w ++ [{| nav_to := "/"; nav_message := None |}]
  /\ netlog w' = netlog w ++ [r].
Proof.
  intros Hlogin Hout w'.
  destruct (login_fulfilled a r s w Hlogin resp Hout) as (Hstore & Hnav & _).
  fold w' in Hstore, Hnav. rewrite Hstore.
  split; [|split; [|split; [|split]]].
  - rewrite lookup_insert_ne by discriminate. apply lookup_insert_eq.
  - apply lookup_insert_eq.
  - intros key H1 H2. rewrite !lookup_insert_ne by congruence. reflexivity.
  - exact Hnav.
  - unfold w', LoginPage.handleSubmit, bind, try_finally, try_catch, gets,
      await.
    simpl. rewrite (Hlogin w). simpl in Hout |- *. rewrite Hout. reflexivity.
Qed.

Lemma login_stores_the_token_pair_example :
  let a := authApi_with (Some (ClientInstance api)) in
  let s := {| LoginPage.formData := LoginRequest.mk "alice" "secret-pw";
              LoginPage.error := "old error";
              LoginPage.loading := false |} in
  let w := fresh_world token_server in
  let r := via_api POST "/auth/login" None
             (Some (LoginBody (LoginRequest.mk "alice" "secret-pw"))) ∅ in
  issues (t := TToken) (AuthApi.login a (LoginPage.formData s)) r
  /\ outcome (server w TToken (netlog w) r)
     = Fulfilled (AxiosResponse.mk (Token.mk "acc-1" "ref-1" "bearer") 200)
  /\ localStorage (snd (snd (LoginPage.handleSubmit a (s, w))))
       !! "access_token" = Some "acc-1".
Proof.
  intros a s w r.
  assert (Hlogin : issues (t := TToken)
                     (AuthApi.login a (LoginPage.formData s)) r)
    by (intros w0; reflexivity).
  assert (Hout : outcome (server w TToken (netlog w) r)
                 = Fulfilled
                     (AxiosResponse.mk (Token.mk "acc-1" "ref-1" "bearer") 200))
    by reflexivity.
  split; [exact Hlogin|]. split; [exact Hout|].
  exact (proj1 (login_stores_the_token_pair a r s w _ Hlogin Hout)).
Defined.

(** Within the model, where a promise is settled and what is thrown
    is an axios error or a [ReferenceError], the submit handler of the
    login form returns normally whatever object stands for [authApi],
    leaves the form data as it was and ends with the loading flag
    cleared. *)
Lemma login_handler_returns
  (a : AuthApi.t) (s : LoginPage.State) (w : World) :
  let result := LoginPage.handleSubmit a (s, w) in
  fst result = Returned tt
  /\ LoginPage.formData (fst (snd result)) = LoginPage.formData s
  /\ LoginPage.loading (fst (snd result)) = false.
Proof.
  intros result. unfold result.
  unfold LoginPage.handleSubmit, bind, try_finally, try_catch, gets, await,
    io.
  simpl.
  destruct (AuthApi.login a (LoginPage.formData s) w) as [[p|e] w1]; simpl;
    [destruct (outcome p); simpl|]; repeat split.
Qed.

(** ** The registration form, continued *)

(** X11. A submission whose password equals the confirmation and has at
    least 8 characters sends one request, [POST /auth/register], whose body
    is the form data; the confirmation field is not part of it.  When the
    request is fulfilled the router goes to [/login] with the success
    message and no error is shown; when it is rejected the router does not
    move and the error is the [detail] of the response, or the fallback
    text.  Either way the handler returns normally with the loading flag
    cleared and writes nothing to [localStorage].  The statement is for
    [authApi] with [api] bound to a client [c]. *)
Theorem register_valid_submission
  (c : Axios.Instance) (s : RegisterPage.State) (w : World) :
  RegisterRequest.password (RegisterPage.formData s)
    = RegisterPage.confirmPassword s ->
  (8 <= String.length (RegisterRequest.password (RegisterPage.formData s)))%nat ->
  let r := {| method := POST; baseURL := Axios.defaults_baseURL c;
              timeout := Axios.defaults_timeout c; url := "/auth/register";
              params := None;
              data := Some (RegisterBody (RegisterPage.formData s));
              headers := ∅ |} in
  let ended (msg : string) :=
    {| RegisterPage.formData := RegisterPage.formData s;
       RegisterPage.confirmPassword := RegisterPage.confirmPassword s;
       RegisterPage.error := msg;
       RegisterPage.loading := false |} in
  RegisterPage.handleSubmit (authApi_with (Some (ClientInstance c))) (s, w)
  = (Returned tt,
     match outcome (server w TUser (netlog w) r) with
     | Fulfilled _ =>
         (ended "",
          snd (navigate "/login" (Some "注册成功，请登录") (log_request r w)))
     | Rejected e =>
         (ended (or_else (response_detail e) "注册失败"), log_request r w)
     end).
Proof.
  intros Hsame Hlong r ended.
  unfold RegisterPage.handleSubmit, bind, try_finally, try_catch, gets, await.
  simpl.
  destruct (decide (RegisterRequest.password (RegisterPage.formData s)
                    ≠ RegisterPage.confirmPassword s)) as [Hdiff|_];
    [contradiction|].
  apply Nat.ltb_ge in Hlong. rewrite Hlong.
  unfold r, ended. simpl.
  match goal with
  | |- context [match ?o with Fulfilled _ => _ | Rejected _ => _ end] =>
      destruct o
  end; reflexivity.
Qed.

Lemma register_valid_submission_example :
  let s := {| RegisterPage.formData :=
                RegisterRequest.mk "alice" "alice@example.org" "long enough"
                  (Some "Alice");
              RegisterPage.confirmPassword := "long enough";
              RegisterPage.error := "";
              RegisterPage.loading := false |} in
  let w := fresh_world (failing_server 400 (Some "Username taken")) in
  (8 <= String.length (RegisterRequest.password (RegisterPage.formData s)))%nat
  /\ RegisterPage.error
       (fst (snd (RegisterPage.handleSubmit
                    (authApi_with (Some (ClientInstance api))) (s, w))))
     = "Username taken"
  /\ history
       (snd (snd (RegisterPage.handleSubmit
                    (authApi_with (Some (ClientInstance api))) (s, w))))
     = [].
Proof.
  intros s w.
  assert (Hlong : (8 <= String.length
                          (RegisterRequest.password (RegisterPage.formData s)))%nat)
    by (simpl; lia).
  split; [exact Hlong|].
  rewrite (register_valid_submission api s w eq_refl Hlong).
  split; reflexivity.
Defined.

(** X12. As the application is linked, neither form reaches the server:
    with the [authApi] of [services/auth.ts] the login handler, and the
    registration handler on a valid submission, end with their fallback
    error, and the request log, [localStorage] and the router history are
    untouched. *)
Theorem forms_as_linked_show_fallback
  (ls : LoginPage.State) (rs : RegisterPage.State) (w : World) :
  RegisterRequest.password (RegisterPage.formData rs)
    = RegisterPage.confirmPassword rs ->
  (8 <= String.length (RegisterRequest.password (RegisterPage.formData rs)))%nat ->
  LoginPage.handleSubmit authApi (ls, w)
  = (Returned tt,
     ({| LoginPage.formData := LoginPage.formData ls;
         LoginPage.error := "登录失败";
         LoginPage.loading := false |}, w))
  /\ RegisterPage.handleSubmit authApi (rs, w)
     = (Returned tt,
        ({| RegisterPage.formData := RegisterPage.formData rs;
            RegisterPage.confirmPassword := RegisterPage.confirmPassword rs;
            RegisterPage.error := "注册失败";
            RegisterPage.loading := false |}, w)).
Proof.
  intros Hsame Hlong. split; [reflexivity|].
  unfold RegisterPage.handleSubmit, bind, try_finally, try_catch, gets, await.
  simpl.
  destruct (decide (RegisterRequest.password (RegisterPage.formData rs)
                    ≠ RegisterPage.confirmPassword rs)) as [Hdiff|_];
    [contradiction|].
  apply Nat.ltb_ge in Hlong. rewrite Hlong. reflexivity.
Qed.

Lemma forms_as_linked_example :
  let rs := {| RegisterPage.formData :=
                 RegisterRequest.mk "alice" "alice@example.org" "long enough"
                   (Some "Alice");
               RegisterPage.confirmPassword := "long enough";
               RegisterPage.error := "";
               RegisterPage.loading := false |} in
  let w := fresh_world ok_server in
  (8 <= String.length (RegisterRequest.password (RegisterPage.formData rs)))%nat
  /\ RegisterPage.error
       (fst (snd (RegisterPage.handleSubmit authApi (rs, w)))) = "注册失败"
  /\ netlog (snd (snd (RegisterPage.handleSubmit authApi (rs, w)))) = [].
Proof.
  intros rs w.
  assert (Hlong : (8 <= String.length
                          (RegisterRequest.password (RegisterPage.formData rs)))%nat)
    by (simpl; lia).
  split; [exact Hlong|].
  rewrite (proj2 (forms_as_linked_show_fallback LoginPage.initial rs w
                    eq_refl Hlong)).
  split; reflexivity.
Defined.

(** ** The detail view, continued *)

(** What a guard [value && element] displays, for an optional string and
    for an optional number. *)
Lemma string_guard_display (o : option string) (el : JSX) :
  react_render (js_and (opt_string o) el)
  = match o with
    | Some s => if decide (s = "") then [] else react_render el
    | None => []
    end.
Proof.
  destruct o as [s|]; [|reflexivity].
  unfold js_and. simpl. destruct (decide (s = "")) as [->|Hne].
  - reflexivity.
  - rewrite bool_decide_true by exact Hne. reflexivity.
Qed.

Lemma number_guard_display (o : option number) (el : JSX) :
  react_render (js_and (opt_number o) el)
  = match o with
    | Some n => if decide (n = 0) then [Text "0"] else react_render el
    | None => []
    end.
Proof.
  destruct o as [n|]; [|reflexivity].
  unfold js_and. simpl. destruct (decide (n = 0)) as [->|Hne].
  - reflexivity.
  - rewrite bool_decide_true by exact Hne. reflexivity.
Qed.

Lemma string_field_display_spec (cls : string) (o : option string) :
  Forall (fun n => exists children, n = Node "p" cls children)
    (string_field_display cls o)
  /\ (string_field_display cls o = [] <-> o = None \/ o = Some "").
Proof.
  unfold string_field_display. destruct o as [s|].
  - destruct (decide (s = "")) as [->|Hne].
    + split; [constructor|]. split; auto.
    + split; [repeat constructor; eauto|].
      split; [discriminate|]. intros [H|H]; [discriminate | congruence].
  - split; [constructor|]. split; auto.
Qed.

Lemma number_field_display_spec (before after : list DOM)
  (o : option number) :
  Forall (fun n => n = Text "0" \/ exists children, n = Node "span" "" children)
    (number_field_display before after o)
  /\ (Text "0" ∈ number_field_display before after o <-> o = Some 0).
Proof.
  unfold number_field_display. destruct o as [n|].
  - destruct (decide (n = 0)) as [->|Hne].
    + split; [constructor; [left; reflexivity | constructor]|].
      split; [reflexivity|]. intros _. apply list_elem_of_singleton. reflexivity.
    + split; [constructor; [right; eauto | constructor]|].
      split; [|congruence].
      intros H. apply list_elem_of_singleton in H. discriminate.
  - split; [constructor|]. split; [|discriminate].
    intros H. by apply elem_of_nil in H.
Qed.

Lemma string_guard_paragraph (cls : string) (o : option string) :
  react_render (js_and (opt_string o) (Element "p" cls [opt_string o]))
  = string_field_display cls o.
Proof.
  rewrite string_guard_display. destruct o as [s|]; [|reflexivity].
  simpl. destruct (decide (s = "")); reflexivity.
Qed.

Lemma number_guard_span (before after : list JSX) (o : option number) :
  react_render
    (js_and (opt_number o)
       (Element "span" "" (before ++ opt_number o :: after)))
  = number_field_display (flat_map react_render before)
      (flat_map react_render after) o.
Proof.
  rewrite number_guard_display. destruct o as [n|]; [|reflexivity].
  simpl. destruct (decide (n = 0)); [reflexivity|].
  rewrite flat_map_app. reflexivity.
Qed.

(** X13. The display of an evidence record is one block holding, first,
    at most two paragraphs (source type, citation) and then the metadata
    row.  A string field never shows as bare text: absent or empty, it
    gives nothing.  The metadata row holds a bare text ["0"] exactly when
    one of [sample_size], [duration_days] and [quality_score] is 0; every
    other entry of the row is a labelled [span]. *)
Theorem evidence_item_display (e : Evidence) :
  let paragraphs :=
    string_field_display "text-sm font-medium text-blue-600"
      (Evidence.source_type e)
    ++ string_field_display "text-gray-700" (Evidence.citation e) in
  let row :=
    number_field_display [Text "样本: "] [] (Evidence.sample_size e)
    ++ number_field_display [Text "时长: "] [Text "天"]
         (Evidence.duration_days e)
    ++ number_field_display [Text "质量分数: "] [] (Evidence.quality_score e) in
  react_render (InterventionDetail.evidence_item e)
  = [Node "div" "border-l-4 border-blue-500 pl-4"
       (paragraphs
        ++ [Node "div" "flex gap-4 text-sm text-gray-500 mt-2" row])]
  /\ Forall (fun n => exists cls children, n = Node "p" cls children)
       paragraphs
  /\ (paragraphs = [] <->
      (Evidence.source_type e = None \/ Evidence.source_type e = Some "")
      /\ (Evidence.citation e = None \/ Evidence.citation e = Some ""))
  /\ Forall (fun n => n = Text "0"
                      \/ exists children, n = Node "span" "" children) row
  /\ (Text "0" ∈ row <->
      Evidence.sample_size e = Some 0
      \/ Evidence.duration_days e = Some 0
      \/ Evidence.quality_score e = Some 0).
Proof.
  intros paragraphs row.
  destruct (string_field_display_spec "text-sm font-medium text-blue-600"
              (Evidence.source_type e)) as [Hp1 He1].
  destruct (string_field_display_spec "text-gray-700" (Evidence.citation e))
    as [Hp2 He2].
  destruct (number_field_display_spec [Text "样本: "] []
              (Evidence.sample_size e)) as [Hr1 Hz1].
  destruct (number_field_display_spec [Text "时长: "] [Text "天"]
              (Evidence.duration_days e)) as [Hr2 Hz2].
  destruct (number_field_display_spec [Text "质量分数: "] []
              (Evidence.quality_score e)) as [Hr3 Hz3].
  split; [|split; [|split; [|split]]].
  - unfold InterventionDetail.evidence_item.
    cbn [react_render flat_map].
    rewrite !string_guard_paragraph.
    rewrite (number_guard_span [JsxString "样本: "] []),
      (number_guard_span [JsxString "时长: "] [JsxString "天"]),
      (number_guard_span [JsxString "质量分数: "] []).
    rewrite ?app_nil_r. unfold paragraphs. rewrite <- app_assoc. reflexivity.
  - unfold paragraphs. apply Forall_app. split.
    + eapply Forall_impl; [exact Hp1|]. simpl. intros n [ch ->]. eauto.
    + eapply Forall_impl; [exact Hp2|]. simpl. intros n [ch ->]. eauto.
  - unfold paragraphs. rewrite <- He1, <- He2. split.
    + intros H. apply app_eq_nil in H. exact H.
    + intros [-> ->]. reflexivity.
  - unfold row. rewrite !Forall_app. auto.
  - unfold row. rewrite !elem_of_app, Hz1, Hz2, Hz3. reflexivity.
Qed.

Lemma evidence_items_one_each (ev : list Evidence) :
  exists items,
    flat_map react_render (map InterventionDetail.evidence_item ev) = items
    /\ Forall2 (fun e n =>
                  react_render (InterventionDetail.evidence_item e) = [n])
         ev items.
Proof.
  induction ev as [|e ev [items [Hitems Hall]]].
  - exists []. split; [reflexivity | constructor].
  - eexists (_ :: items). split.
    + cbn [map flat_map]. rewrite Hitems.
      unfold InterventionDetail.evidence_item at 1. cbn [react_render app].
      reflexivity.
    + constructor; [reflexivity | exact Hall].
Qed.

(** X14. The evidence card shows the heading and then, for an empty list,
    the text "no evidence data", and otherwise one block per evidence
    record, in the order of the list, each block being the display of its
    record: nothing is dropped, merged or reordered. *)
Theorem evidence_section_entries (ev : list Evidence) :
  exists items,
    react_render (InterventionDetail.evidence_section ev)
    = [Node "div" "bg-white rounded-lg shadow-lg p-6"
         [ Node "h2" "text-2xl font-bold mb-4" [Text "相关证据"];
           match ev with
           | [] => Node "p" "text-gray-500" [Text "暂无证据数据"]
           | _ :: _ => Node "div" "space-y-4" items
           end ]]
    /\ Forall2 (fun e n =>
                  react_render (InterventionDetail.evidence_item e) = [n])
         ev items
    /\ length items = length ev.
Proof.
  destruct (evidence_items_one_each ev) as [items [Hitems Hall]].
  exists items. split; [|split; [exact Hall|]].
  - unfold InterventionDetail.evidence_section.
    destruct ev as [|e ev'].
    + reflexivity.
    + destruct (decide (length (e :: ev') = 0%nat)) as [H|_];
        [discriminate H|].
      cbn [react_render flat_map]. rewrite app_nil_r in *.
      cbn [react_render flat_map] in Hitems. rewrite !app_nil_r.
      rewrite <- Hitems. reflexivity.
  - symmetry. eapply Forall2_length. exact Hall.
Qed.

(** * Properties of the routes *)

Lemma split_on_app c a b :
  lacks c a = true -> split_on c (a +:+ String c b) = a :: split_on c b.
Proof.
  induction a as [|x rest IH].
  - intros _. simpl. rewrite Ascii.eqb_refl. reflexivity.
  - intros H. apply lacks_cons in H as [Hx Hrest].
    simpl. rewrite Hx, (IH Hrest). reflexivity.
Qed.

(** X15. The router shows a page for three kinds of location only: for the
    root the dashboard; for the single segment [interventions], in any
    case of letters, the list; for [interventions] followed by one
    non-empty segment the detail view.  The detail view then gets the
    identifier 1, whatever the second segment is; no location gives it
    another identifier. *)
Theorem routes_characterised (segments : list string) :
  App.first_match App.routes segments
  = match segments with
    | [] => Some App.DashboardPage
    | [s] =>
        if decide (App.lower s = "interventions")
        then Some App.InterventionListPage else None
    | [s; t] =>
        if decide (App.lower s = "interventions")
        then if decide (t = "") then None
             else Some (App.InterventionDetailPage 1)
        else None
    | _ => None
    end.
Proof.
  assert (Hstatic : forall s,
             App.match_segment (App.Static "interventions") s
             = bool_decide (App.lower s = "interventions")).
  { intros s. unfold App.match_segment.
    change (App.lower "interventions") with "interventions".
    apply bool_decide_ext. split; intros H; symmetry; exact H. }
  unfold App.routes.
  destruct segments as [|s [|t [|u rest]]];
    cbn [App.first_match App.match_pattern]; rewrite ?Hstatic.
  - reflexivity.
  - destruct (decide (App.lower s = "interventions")) as [H|H].
    + rewrite (bool_decide_true _ H). reflexivity.
    + rewrite (bool_decide_false _ H). reflexivity.
  - destruct (decide (App.lower s = "interventions")) as [H|H].
    + rewrite (bool_decide_true _ H). cbn [App.match_segment andb].
      destruct (decide (t = "")) as [Ht|Ht].
      * rewrite bool_decide_false by auto. reflexivity.
      * rewrite (bool_decide_true _ Ht). reflexivity.
    + rewrite (bool_decide_false _ H). reflexivity.
  - destruct (bool_decide (App.lower s = "interventions")),
      (App.match_segment (App.Param "id") t); reflexivity.
Qed.

(** X16. Opening [/interventions/<k>] for any number [k] shows the detail
    view of intervention 1: the two requests that follow are
    [GET /interventions/1] and [GET /evidence/intervention/1], and [k]
    occurs in neither. *)
Theorem detail_route_ignores_id (k : number) (w : World) :
  App.page_at ("/interventions/" +:+ number_to_string k)
  = Some (App.InterventionDetailPage 1)
  /\ netlog (snd (snd (InterventionDetail.loadData 1
                         (InterventionDetail.initial, w))))
     = netlog w
       ++ [via_api GET "/interventions/1" None None ∅;
           via_api GET "/evidence/intervention/1" None None ∅].
Proof.
  split.
  - unfold App.page_at, App.path_segments.
    pose proof (number_to_string_numeral k) as Hnum.
    assert (Hslash : lacks "/" (number_to_string k) = true)
      by (apply numeral_lacks; [reflexivity | exact Hnum]).
    assert (Hne : number_to_string k <> "").
    { unfold number_to_string, NilZero.string_of_int, NilZero.string_of_uint.
      destruct (Z.to_int k) as [d|d]; [destruct d|]; discriminate. }
    change ("/interventions/" +:+ number_to_string k)
      with ("" +:+ String "/"
              ("interventions" +:+ String "/" (number_to_string k))).
    rewrite !split_on_app by reflexivity.
    rewrite (split_on_lacks _ _ Hslash).
    cbn [tail App.drop_trailing_empty].
    destruct (decide (number_to_string k = "")) as [H|_]; [contradiction|].
    rewrite routes_characterised.
    destruct (decide (App.lower "interventions" = "interventions")) as [_|H];
      [|contradiction H; reflexivity].
    destruct (decide (number_to_string k = "")) as [H|_]; [contradiction|].
    reflexivity.
  - pose proof (detail_load_joins 1 InterventionDetail.initial w) as Hrun.
    cbv zeta in Hrun. rewrite Hrun.
    destruct (outcome (Promise_all _ _)) as [[a b]|e]; simpl;
      rewrite <- app_assoc; reflexivity.
Qed.

(** X17. Where the forms send the user.  After a fulfilled login the
    router is at [/], where the dashboard is shown.  After a fulfilled
    registration the router is at [/login], and no route matches it:
    [App.tsx] has no route for the login page (nor for [/register], the
    target of the link on the login form). *)
Theorem form_navigation_targets
  (c : Axios.Instance) (ls : LoginPage.State) (rs : RegisterPage.State)
  (w : World) (tokens : AxiosResponse.t Token.t) (user : AxiosResponse.t User) :
  let a := authApi_with (Some (ClientInstance c)) in
  let login_request :=
    {| method := POST; baseURL := Axios.defaults_baseURL c;
       timeout := Axios.defaults_timeout c; url := "/auth/login";
       params := None; data := Some (LoginBody (LoginPage.formData ls));
       headers := ∅ |} in
  let register_request :=
    {| method := POST; baseURL := Axios.defaults_baseURL c;
       timeout := Axios.defaults_timeout c; url := "/auth/register";
       params := None; data := Some (RegisterBody (RegisterPage.formData rs));
       headers := ∅ |} in
  outcome (server w TToken (netlog w) login_request) = Fulfilled tokens ->
  RegisterRequest.password (RegisterPage.formData rs)
    = RegisterPage.confirmPassword rs ->
  (8 <= String.length (RegisterRequest.password (RegisterPage.formData rs)))%nat ->
  outcome (server w TUser (netlog w) register_request) = Fulfilled user ->
  (exists n,
      last (history (snd (snd (LoginPage.handleSubmit a (ls, w))))) = Some n
      /\ nav_to n = "/"
      /\ App.page_at (nav_to n) = Some App.DashboardPage)
  /\ (exists n,
      last (history (snd (snd (RegisterPage.handleSubmit a (rs, w)))))
      = Some n
      /\ nav_to n = "/login"
      /\ App.page_at (nav_to n) = None)
  /\ App.page_at "/register" = None.
Proof.
  intros a login_request register_request Hlogin Hsame Hlong Hregister.
  split; [|split; [|reflexivity]].
  - assert (Hissues : issues (t := TToken)
                        (AuthApi.login a (LoginPage.formData ls)) login_request)
      by (intros w0; reflexivity).
    destruct (login_fulfilled a login_request ls w Hissues tokens Hlogin)
      as (_ & Hnav & _).
    eexists. rewrite Hnav, last_snoc. repeat split.
  - unfold a. rewrite (register_valid_submission c rs w Hsame Hlong).
    fold register_request. simpl in Hregister |- *. rewrite Hregister.
    eexists. simpl. rewrite last_snoc. repeat split.
Qed.

Lemma form_navigation_targets_example :
  let a := authApi_with (Some (ClientInstance api)) in
  let ls := {| LoginPage.formData := LoginRequest.mk "alice" "secret-pw";
               LoginPage.error := "";
               LoginPage.loading := false |} in
  let rs := {| RegisterPage.formData :=
                 RegisterRequest.mk "alice" "alice@example.org" "long enough"
                   (Some "Alice");
               RegisterPage.confirmPassword := "long enough";
               RegisterPage.error := "";
               RegisterPage.loading := false |} in
  let w := fresh_world token_server in
  (8 <= String.length (RegisterRequest.password (RegisterPage.formData rs)))%nat
  /\ exists n,
       last (history (snd (snd (RegisterPage.handleSubmit a (rs, w)))))
       = Some n
       /\ nav_to n = "/login"
       /\ App.page_at (nav_to n) = None.
Proof.
  intros a ls rs w.
  assert (Hlong : (8 <= String.length
                          (RegisterRequest.password (RegisterPage.formData rs)))%nat)
    by (simpl; lia).
  split; [exact Hlong|].
  exact (proj1 (proj2 (form_navigation_targets api ls rs w
                         (AxiosResponse.mk (Token.mk "acc-1" "ref-1" "bearer") 200)
                         (AxiosResponse.mk (blank TUser) 200)
                         eq_refl eq_refl Hlong eq_refl))).
Defined.

(** * Further properties, continued *)

Lemma titled_block_display (title : string) (o : option string) :
  title <> "" ->
  react_render
    (js_and (opt_string o)
       (Element "div" "mb-4"
          [ Element "h3" "font-semibold mb-2" [JsxString title];
            Element "p" "text-gray-700" [opt_string o] ]))
  = match o with
    | Some s =>
        if decide (s = "") then []
        else [Node "div" "mb-4"
                [ Node "h3" "font-semibold mb-2" [Text title];
                  Node "p" "text-gray-700" [Text s] ]]
    | None => []
    end.
Proof.
  intros Ht. rewrite string_guard_display. destruct o as [s|]; [|reflexivity].
  destruct (decide (s = "")) as [|Hs]; [reflexivity|].
  cbn [react_render flat_map opt_string app].
  destruct (decide (title = "")); [contradiction|].
  destruct (decide (s = "")); [contradiction|]. reflexivity.
Qed.

(** X18. The intervention card always shows the name, the category and the
    level, the level also when it is 0.  After them come at most two
    titled blocks: one for the description and one for the mechanism, each
    present exactly when its field is a non-empty string; an absent or
    empty field leaves no trace. *)
Theorem intervention_section_display (i : Intervention) :
  let block (title : string) (o : option string) : list DOM :=
    match o with
    | Some s =>
        if decide (s = "") then []
        else [Node "div" "mb-4"
                [ Node "h3" "font-semibold mb-2" [Text title];
                  Node "p" "text-gray-700" [Text s] ]]
    | None => []
    end in
  react_render (InterventionDetail.intervention_section i)
  = [Node "div" "bg-white rounded-lg shadow-lg p-6 mb-6"
       ([ Node "h1" "text-3xl font-bold mb-4"
            (if decide (Intervention.name i = "") then []
             else [Text (Intervention.name i)]);
          Node "div" "grid md:grid-cols-2 gap-4 mb-6"
            [ Node "div" ""
                [ Node "p" "text-sm text-gray-500" [Text "分类"];
                  Node "p" "font-medium"
                    [Text (category_string (Intervention.category i))] ];
              Node "div" ""
                [ Node "p" "text-sm text-gray-500" [Text "证据等级"];
                  Node "p" "font-medium"
                    [Text "Level ";
                     Text (number_to_string (Intervention.evidence_level i))] ] ] ]
        ++ block "描述" (Intervention.description i)
        ++ block "作用机制" (Intervention.mechanism i))].
Proof.
  intros block. unfold InterventionDetail.intervention_section.
  cbn [react_render flat_map].
  rewrite (titled_block_display "描述"), (titled_block_display "作用机制")
    by discriminate.
  assert (Hcat : forall c : Category,
             (if decide (category_string c = "") then []
              else [Text (category_string c)])
             = [Text (category_string c)]) by (intros []; reflexivity).
  unfold Required in *. rewrite Hcat, !app_nil_r. reflexivity.
Qed.

(** [get], [update] and [delete] of [interventionsApi] address one
    intervention by the same URL and differ in the method and the body
    only; [create] and [list] share the collection URL.  Each is one
    request through the shared client. *)
Lemma intervention_resource_urls (id : number) (d : Intervention.t option)
  (p : option ListParams.t) :
  let item := "/interventions/" +:+ number_to_string id in
  issues (interventionsApi.get id) (via_api GET item None None ∅)
  /\ issues (interventionsApi.update id d)
       (via_api PUT item None (Some (InterventionBody d)) ∅)
  /\ issues (interventionsApi.delete id) (via_api DELETE item None None ∅)
  /\ issues (interventionsApi.create d)
       (via_api POST "/interventions" None (Some (InterventionBody d)) ∅)
  /\ issues (interventionsApi.list p)
       (via_api GET "/interventions" (OfList <$> p) None ∅)
  /\ url_path item = item
  /\ url_path item <> "/interventions".
Proof.
  intros item.
  repeat (split; [intros w; reflexivity|]).
  destruct (numbered_url "/interventions/" id eq_refl eq_refl) as [Hpath _].
  split; [exact Hpath|]. fold item in Hpath. rewrite Hpath.
  unfold item. simpl. discriminate.
Qed.

(** * The detail view: what is displayed after a load *)








